(** * Proposal transaction builders of the SPL Governance client (src/utils.ts)

    A shallow embedding of [createSplGovernanceProgram],
    [getInstructionDataFromInstruction], [createProposalTx],
    [insertTransactionTx], [createProposalSignOffTx] and
    [createProposalWithInstructionsTransactions].

    The builders are asynchronous JavaScript functions that read an account,
    draw a fresh key pair, derive program addresses and hand method calls to
    Anchor.  They are embedded in a state-and-exception monad [Async] whose
    state records, in order, every call made to a collaborator, so that
    statements such as "derives exactly these addresses" or "fails before any
    transaction is constructed" are statements about the recorded trace. *)

From Stdlib Require Import List String ZArith NArith Lia Bool.
From Stdlib Require Import Strings.Byte.
Import ListNotations.

Local Open Scope string_scope.
Local Open Scope list_scope.

(** ** Keys, addresses and byte buffers *)

(** A [web3.PublicKey]; [toBuffer] is its byte image. *)
Record PublicKey : Type := mkPublicKey { toBuffer : list byte }.

(** Anchor's [Address = PublicKey | string]. *)
Inductive Address : Type :=
| AddrKey (key : PublicKey)
| AddrStr (base58 : string).

(** [Buffer.from(s)] for a string literal: its bytes. *)
Definition Buffer_from (s : string) : list byte := list_byte_of_string s.

Definition PUBLIC_KEY_LENGTH : nat := 32.

(** ** Exceptions and results *)

Inductive Exn : Type :=
| Error (message : string)
| TypeError (message : string)
| RangeError (message : string).

Inductive result (A : Type) : Type :=
| Ok (value : A)
| Throw (e : Exn).
Arguments Ok {A} value.
Arguments Throw {A} e.

(** ** bn.js numbers, as far as [new BN(n).toArrayLike(Buffer, "le", k)]
    needs them: a sign flag and a magnitude. *)

Record BN : Type := mkBN { negative : bool; magnitude : N }.

(** [new BN(number)]: the sign is split off; bn.js asserts that the
    magnitude is below 2^53. *)
Definition BN_new (number : Z) : result BN :=
  if (Z.abs number <? 2 ^ 53)%Z
  then Ok {| negative := (number <? 0)%Z; magnitude := Z.abs_N number |}
  else Throw (Error "Assertion failed").

(** [byteLength]: ceil(bitLength / 8); zero has bit length 0. *)
Definition byteLength (b : BN) : N := ((N.size (magnitude b) + 7) / 8)%N.

Definition byte_of_N (n : N) : byte :=
  match Byte.of_N (n mod 256) with
  | Some b => b
  | None => x00
  end.

(** The [len] low-order bytes of [n], least significant first. *)
Fixpoint little_endian (len : nat) (n : N) : list byte :=
  match len with
  | O => []
  | S len' => byte_of_N n :: little_endian len' (n / 256)
  end.

(** Reading a little-endian buffer back. *)
Fixpoint of_little_endian (bs : list byte) : N :=
  match bs with
  | [] => 0%N
  | b :: bs' => (Byte.to_N b + 256 * of_little_endian bs')%N
  end.

(** [bn.toArrayLike(Buffer, "le", length)]: asserts that the magnitude fits
    in [len] bytes, then writes the magnitude (the sign is not written). *)
Definition toArrayLike_le (b : BN) (len : nat) : result (list byte) :=
  if (byteLength b <=? N.of_nat len)%N
  then Ok (little_endian len (magnitude b))
  else Throw (Error "byte array longer than desired length").

(** ** Instructions and transactions *)

Record AccountMeta : Type := mkAccountMeta {
  pubkey : PublicKey;
  isSigner : bool;
  isWritable : bool
}.

(** [web3.TransactionInstruction]. *)
Record TransactionInstruction : Type := mkTransactionInstruction {
  keys : list AccountMeta;
  ix_programId : PublicKey;
  ix_data : list byte
}.

(** The record built by [getInstructionDataFromInstruction]. *)
Record InstructionData : Type := mkInstructionData {
  programId : PublicKey;
  accounts : list AccountMeta;
  data : list byte
}.

Inductive VoteType : Type :=
| singleChoice
| multiChoice.

(** A call [governanceProgram.methods.<name>(args...)], with the positional
    arguments of the source. *)
Inductive MethodCall : Type :=
| createProposal (name description : string) (voteType : VoteType)
    (options : list string) (useDenyOption : bool) (proposalSeed : PublicKey)
| insertTransaction (optionIndex index holdUpTime : Z)
    (instructions : list InstructionData)
| signOffProposal.

(** What [.accounts({...}).transaction()] yields: the unsigned transaction,
    described by the program it targets, the method call and the named
    accounts in the order of the object literal, each as the caller gave it
    (Anchor has converted every one of them to a public key by then, see
    [methods_transaction]). *)
Record Transaction : Type := mkTransaction {
  tx_programId : PublicKey;
  tx_method : MethodCall;
  tx_accounts : list (string * Address)
}.

Fixpoint lookup (name : string) (accs : list (string * Address)) : option Address :=
  match accs with
  | [] => None
  | (n, a) :: rest => if String.eqb n name then Some a else lookup name rest
  end.

Definition account (name : string) (tx : Transaction) : option Address :=
  lookup name (tx_accounts tx).

(** ** The realm account (the fields the builders read) *)

Record RealmConfig : Type := mkRealmConfig { councilMint : option PublicKey }.

Record RealmV2 : Type := mkRealmV2 {
  communityMint : PublicKey;
  config : RealmConfig
}.

(** ** The program handle *)

Inductive Commitment : Type :=
| processed
| confirmed
| finalized
| legacyCommitment (level : string).

Record ConfirmOptions : Type := mkConfirmOptions {
  commitment : option Commitment;
  preflightCommitment : option Commitment;
  skipPreflight : option bool
}.

Record AnchorWallet : Type := mkAnchorWallet { wallet_publicKey : PublicKey }.

(** A [web3.Connection], as far as the builders use it: the outcome of
    fetching and decoding the realm account at an address.  The fetch may
    throw, or yield no account, or yield the realm. *)
Record Connection : Type := mkConnection {
  fetchRealmV2 : Address -> result (option RealmV2)
}.

Record AnchorProvider : Type := mkAnchorProvider {
  connection : Connection;
  wallet : AnchorWallet;
  opts : ConfirmOptions
}.

(** [provider.publicKey] is the wallet's public key. *)
Definition provider_publicKey (p : AnchorProvider) : PublicKey :=
  wallet_publicKey (wallet p).

Record Program : Type := mkProgram {
  program_programId : PublicKey;
  provider : AnchorProvider
}.

(** ** The trace of collaborator calls and the [Async] monad *)

Inductive Event : Type :=
| RealmFetched (address : Address)
| KeypairGenerated (publicKey : PublicKey)
| AddressDerived (seeds : list (list byte)) (owner : PublicKey)
| TransactionBuilt (tx : Transaction).

(** [entropy] counts the key pairs drawn so far; [trace] is chronological. *)
Record World : Type := mkWorld { entropy : nat; trace : list Event }.

Definition log (e : Event) (w : World) : World :=
  {| entropy := entropy w; trace := trace w ++ [e] |}.

Definition Async (A : Type) : Type := World -> result A * World.

Definition ret {A} (a : A) : Async A := fun w => (Ok a, w).

Definition throw {A} (e : Exn) : Async A := fun w => (Throw e, w).

Definition bind {A B} (m : Async A) (k : A -> Async B) : Async B :=
  fun w =>
    match m w with
    | (Ok a, w') => k a w'
    | (Throw e, w') => (Throw e, w')
    end.

Definition lift {A} (r : result A) : Async A := fun w => (r, w).

Notation "x <- c1 ;; c2" := (bind c1 (fun x => c2))
  (at level 61, c1 at next level, right associativity).

Definition outcome {A} (r : result A * World) : result A := fst r.
Definition events {A} (r : result A * World) : list Event := trace (snd r).

(** ** Constants and platform primitives

    [GOVERNANCE_PROGRAM_ID] and [GOVERNANCE_PROGRAM_SEED] are imported from
    ./constants; the system program id and the rent sysvar, base58 decoding,
    the program-address derivation and key-pair generation are web3.js's.
    They are taken as parameters: the builders are verified for every value
    of them.  [findProgramAddress] is the derivation as a deterministic
    function of the seed list and the owning program, giving the address and
    its bump; [generateKeypair n] is the public key of the n-th key pair the
    randomness source yields. *)
Class Platform : Type := mkPlatform {
  GOVERNANCE_PROGRAM_ID : PublicKey;
  GOVERNANCE_PROGRAM_SEED : string;
  SystemProgram_programId : PublicKey;
  SYSVAR_RENT_PUBKEY : PublicKey;
  bs58_decode : string -> option (list byte);
  findProgramAddress : list (list byte) -> PublicKey -> PublicKey * Z;
  generateKeypair : nat -> PublicKey
}.

Section Builders.

Context {platform : Platform}.

(** [new web3.PublicKey(value)] for an [Address]: a key is taken as it is; a
    string is decoded from base58 and must give 32 bytes. *)
Definition PublicKey_new (value : Address) : result PublicKey :=
  match value with
  | AddrKey key => Ok key
  | AddrStr s =>
      match bs58_decode s with
      | None => Throw (Error "Non-base58 character")
      | Some decoded =>
          if Nat.eqb (List.length decoded) PUBLIC_KEY_LENGTH
          then Ok (mkPublicKey decoded)
          else Throw (Error "Invalid public key input")
      end
  end.

(** [new web3.Keypair().publicKey]: draws the next key pair. *)
Definition Keypair_new_publicKey : Async PublicKey :=
  fun w =>
    let pk := generateKeypair (entropy w) in
    (Ok pk, {| entropy := S (entropy w); trace := trace w ++ [KeypairGenerated pk] |}).

(** [web3.PublicKey.findProgramAddressSync(seeds, programId)]. *)
Definition findProgramAddressSync (seeds : list (list byte)) (owner : PublicKey)
  : Async (PublicKey * Z) :=
  fun w => (Ok (findProgramAddress seeds owner), log (AddressDerived seeds owner) w).

(** [governanceProgram.account.realmV2.fetch(address)]. *)
Definition account_realmV2_fetch (governanceProgram : Program) (address : Address)
  : Async (option RealmV2) :=
  fun w =>
    (fetchRealmV2 (connection (provider governanceProgram)) address,
     log (RealmFetched address) w).

(** What [.accounts({...})] does with the addresses it is given: Anchor
    converts each one with [new PublicKey(address)], and the first that is
    not a public key makes the call throw.  Anchor reads the accounts in
    the order of the instruction's account list in ./idl; they are taken
    here in the order of the object literals of utils.ts. *)
Fixpoint translateAccounts (accs : list (string * Address)) : result unit :=
  match accs with
  | [] => Ok tt
  | (_, address) :: rest =>
      match PublicKey_new address with
      | Ok _ => translateAccounts rest
      | Throw e => Throw e
      end
  end.

(** What [.transaction()] does with the arguments: it encodes them, and the
    transaction index of [insertTransaction], an unsigned 16-bit field, is
    refused with a RangeError outside 0..65535. *)
Definition encodeArguments (call : MethodCall) : result unit :=
  match call with
  | insertTransaction _ index _ _ =>
      if ((0 <=? index) && (index <? 65536))%Z
      then Ok tt
      else Throw (RangeError "The value is out of range. It must be >= 0 and <= 65535.")
  | _ => Ok tt
  end.

(** [governanceProgram.methods.<call>.accounts(accs).transaction()]: the
    accounts are converted, the arguments encoded, and only then is there a
    transaction. *)
Definition methods_transaction (governanceProgram : Program) (call : MethodCall)
    (accs : list (string * Address)) : Async Transaction :=
  translated <- lift (translateAccounts accs) ;;
  encoded <- lift (encodeArguments call) ;;
  fun w =>
    let tx := {| tx_programId := program_programId governanceProgram;
                 tx_method := call;
                 tx_accounts := accs |} in
    (Ok tx, log (TransactionBuilt tx) w).

(** Member access [value.toBuffer()] on a value that may be null. *)
Definition nonNull (value : option PublicKey) : Async PublicKey :=
  match value with
  | Some key => ret key
  | None => throw (TypeError "Cannot read properties of null (reading 'toBuffer')")
  end.

(** A default parameter [p = d]. *)
Definition defaultTo {A} (d : A) (p : option A) : A :=
  match p with
  | Some a => a
  | None => d
  end.

(** *** createSplGovernanceProgram (utils.ts 23-39) *)
Definition createSplGovernanceProgram (wallet : AnchorWallet) (connection : Connection)
    (programId : option PublicKey) : Program :=
  let programId := defaultTo GOVERNANCE_PROGRAM_ID programId in
  let provider :=
    {| connection := connection;
       wallet := wallet;
       opts := {| commitment := Some confirmed;
                  preflightCommitment := Some confirmed;
                  skipPreflight := Some false |} |} in
  {| program_programId := programId; provider := provider |}.

(** *** getInstructionDataFromInstruction (utils.ts 41-49) *)
Definition getInstructionDataFromInstruction (instruction : TransactionInstruction)
  : InstructionData :=
  {| programId := ix_programId instruction;
     accounts := keys instruction;
     data := ix_data instruction |}.

(** The value [createProposalTx] resolves to. *)
Record CreateProposal : Type := mkCreateProposal {
  tx : Transaction;
  proposalAddress : PublicKey;
  proposalOwnerRecordKey : PublicKey
}.

(** [councilVote ? realm.config.councilMint : realm.communityMint] *)
Definition selectGoverningTokenMint (councilVote : bool) (realm : RealmV2)
  : option PublicKey :=
  if councilVote then councilMint (config realm) else Some (communityMint realm).

(** *** createProposalTx (utils.ts 61-136)

    The fallible sub-expressions are sequenced in JavaScript's evaluation
    order (array elements left to right, arguments before the call). *)
Definition createProposalTx (governanceProgram : Program)
    (realmKey governanceKey : Address) (proposalName : string)
    (councilVote : option bool) : Async CreateProposal :=
  let councilVote := defaultTo false councilVote in
  realm <- account_realmV2_fetch governanceProgram realmKey ;;
  match realm with
  | None => throw (Error "Could not fetch Realm V2 account")
  | Some realm =>
    proposalSeed <- Keypair_new_publicKey ;;
    let governingTokenMint := selectGoverningTokenMint councilVote realm in
    let payer := provider_publicKey (provider governanceProgram) in
    (* proposalAddress *)
    governance <- lift (PublicKey_new governanceKey) ;;
    mint <- nonNull governingTokenMint ;;
    pa <- findProgramAddressSync
            [ Buffer_from GOVERNANCE_PROGRAM_SEED;
              toBuffer governance;
              toBuffer mint;
              toBuffer proposalSeed ]
            GOVERNANCE_PROGRAM_ID ;;
    let proposalAddress := fst pa in
    (* proposalOwnerRecordKey *)
    realmPk <- lift (PublicKey_new realmKey) ;;
    por <- findProgramAddressSync
             [ Buffer_from GOVERNANCE_PROGRAM_SEED;
               toBuffer realmPk;
               toBuffer mint;
               toBuffer payer ]
             GOVERNANCE_PROGRAM_ID ;;
    let proposalOwnerRecordKey := fst por in
    (* realmConfigAddress *)
    realmPk' <- lift (PublicKey_new realmKey) ;;
    rc <- findProgramAddressSync
            [ Buffer_from "realm-config"; toBuffer realmPk' ]
            GOVERNANCE_PROGRAM_ID ;;
    let realmConfigAddress := fst rc in
    (* proposalDepositAddress *)
    pd <- findProgramAddressSync
            [ toBuffer proposalAddress; toBuffer payer ]
            GOVERNANCE_PROGRAM_ID ;;
    let proposalDepositAddress := fst pd in
    tx <- methods_transaction governanceProgram
            (createProposal proposalName "" singleChoice ["Approve"] true proposalSeed)
            [ ("realm", realmKey);
              ("proposalAddress", AddrKey proposalAddress);
              ("governance", governanceKey);
              ("proposalOwnerRecord", AddrKey proposalOwnerRecordKey);
              ("governanceAuthority", AddrKey payer);
              ("payer", AddrKey payer);
              ("governingTokenMint", AddrKey mint);
              ("systemProgram", AddrKey SystemProgram_programId);
              ("realmConfigAddress", AddrKey realmConfigAddress);
              ("proposalDepositAddress", AddrKey proposalDepositAddress) ] ;;
    ret {| tx := tx;
           proposalAddress := proposalAddress;
           proposalOwnerRecordKey := proposalOwnerRecordKey |}
  end.

(** *** insertTransactionTx (utils.ts 149-186)

    [txIndex], a JavaScript number, is taken to be an integer. *)
Definition insertTransactionTx (governanceProgram : Program)
    (governanceKey proposalAddress proposalOwnerRecordKey : Address)
    (txIndex : Z) (instructions : list TransactionInstruction) : Async Transaction :=
  let optionIndex := 0%Z in
  let holdupTime := 0%Z in
  let ixDataVec := map (fun ix => getInstructionDataFromInstruction ix) instructions in
  let payer := provider_publicKey (provider governanceProgram) in
  proposal <- lift (PublicKey_new proposalAddress) ;;
  optionBn <- lift (BN_new optionIndex) ;;
  optionBytes <- lift (toArrayLike_le optionBn 1) ;;
  indexBn <- lift (BN_new txIndex) ;;
  indexBytes <- lift (toArrayLike_le indexBn 2) ;;
  pta <- findProgramAddressSync
           [ Buffer_from GOVERNANCE_PROGRAM_SEED;
             toBuffer proposal;
             optionBytes;
             indexBytes ]
           GOVERNANCE_PROGRAM_ID ;;
  let proposalTransactionAddress := fst pta in
  methods_transaction governanceProgram
    (insertTransaction optionIndex txIndex holdupTime ixDataVec)
    [ ("governance", governanceKey);
      ("proposal", proposalAddress);
      ("tokenOwnerRecord", proposalOwnerRecordKey);
      ("governanceAuthority", AddrKey payer);
      ("proposalTransactionAddress", AddrKey proposalTransactionAddress);
      ("payer", AddrKey payer);
      ("systemProgram", AddrKey SystemProgram_programId);
      ("rent", AddrKey SYSVAR_RENT_PUBKEY) ].

(** *** createProposalSignOffTx (utils.ts 198-215) *)
Definition createProposalSignOffTx (governanceProgram : Program)
    (realmKey governanceKey proposalOwnerRecordKey proposalAddress : Address)
  : Async Transaction :=
  let signatory := provider_publicKey (provider governanceProgram) in
  methods_transaction governanceProgram signOffProposal
    [ ("realm", realmKey);
      ("governance", governanceKey);
      ("proposal", proposalAddress);
      ("signatory", AddrKey signatory);
      ("proposalOwnerRecord", proposalOwnerRecordKey) ].

(** *** createProposalWithInstructionsTransactions (utils.ts 228-342)

    [Promise.all] over the three [.transaction()] promises, created in the
    order of the array. *)
Definition createProposalWithInstructionsTransactions (governanceProgram : Program)
    (realmKey governanceKey : Address) (proposalName : string)
    (instructions : list TransactionInstruction) (councilVote : option bool)
  : Async (list Transaction) :=
  let councilVote := defaultTo false councilVote in
  realm <- account_realmV2_fetch governanceProgram realmKey ;;
  match realm with
  | None => throw (Error "Could not fetch Realm V2 account")
  | Some realm =>
    proposalSeed <- Keypair_new_publicKey ;;
    let governingTokenMint := selectGoverningTokenMint councilVote realm in
    let payer := provider_publicKey (provider governanceProgram) in
    governance <- lift (PublicKey_new governanceKey) ;;
    mint <- nonNull governingTokenMint ;;
    pa <- findProgramAddressSync
            [ Buffer_from GOVERNANCE_PROGRAM_SEED;
              toBuffer governance;
              toBuffer mint;
              toBuffer proposalSeed ]
            GOVERNANCE_PROGRAM_ID ;;
    let proposalAddress := fst pa in
    realmPk <- lift (PublicKey_new realmKey) ;;
    por <- findProgramAddressSync
             [ Buffer_from GOVERNANCE_PROGRAM_SEED;
               toBuffer realmPk;
               toBuffer mint;
               toBuffer payer ]
             GOVERNANCE_PROGRAM_ID ;;
    let proposalOwnerRecordKey := fst por in
    realmPk' <- lift (PublicKey_new realmKey) ;;
    rc <- findProgramAddressSync
            [ Buffer_from "realm-config"; toBuffer realmPk' ]
            GOVERNANCE_PROGRAM_ID ;;
    let realmConfigAddress := fst rc in
    pd <- findProgramAddressSync
            [ toBuffer proposalAddress; toBuffer payer ]
            GOVERNANCE_PROGRAM_ID ;;
    let proposalDepositAddress := fst pd in
    let optionIndex := 0%Z in
    let holdupTime := 0%Z in
    let txIndex := 0%Z in
    let ixDataVec := map (fun ix => getInstructionDataFromInstruction ix) instructions in
    optionBn <- lift (BN_new optionIndex) ;;
    optionBytes <- lift (toArrayLike_le optionBn 1) ;;
    indexBn <- lift (BN_new txIndex) ;;
    indexBytes <- lift (toArrayLike_le indexBn 2) ;;
    pta <- findProgramAddressSync
             [ Buffer_from GOVERNANCE_PROGRAM_SEED;
               toBuffer proposalAddress;
               optionBytes;
               indexBytes ]
             GOVERNANCE_PROGRAM_ID ;;
    let proposalTransactionAddress := fst pta in
    (* TX 1: create the proposal *)
    tx1 <- methods_transaction governanceProgram
             (createProposal proposalName "" singleChoice ["Approve"] true proposalSeed)
             [ ("realm", realmKey);
               ("proposalAddress", AddrKey proposalAddress);
               ("governance", governanceKey);
               ("proposalOwnerRecord", AddrKey proposalOwnerRecordKey);
               ("governanceAuthority", AddrKey payer);
               ("payer", AddrKey payer);
               ("governingTokenMint", AddrKey mint);
               ("systemProgram", AddrKey SystemProgram_programId);
               ("realmConfigAddress", AddrKey realmConfigAddress);
               ("proposalDepositAddress", AddrKey proposalDepositAddress) ] ;;
    (* TX 2: insert the instructions *)
    tx2 <- methods_transaction governanceProgram
             (insertTransaction optionIndex txIndex holdupTime ixDataVec)
             [ ("governance", governanceKey);
               ("proposal", AddrKey proposalAddress);
               ("tokenOwnerRecord", AddrKey proposalOwnerRecordKey);
               ("governanceAuthority", AddrKey payer);
               ("proposalTransactionAddress", AddrKey proposalTransactionAddress);
               ("payer", AddrKey payer);
               ("systemProgram", AddrKey SystemProgram_programId);
               ("rent", AddrKey SYSVAR_RENT_PUBKEY) ] ;;
    (* TX 3: sign off *)
    tx3 <- methods_transaction governanceProgram signOffProposal
             [ ("realm", realmKey);
               ("governance", governanceKey);
               ("proposal", AddrKey proposalAddress);
               ("signatory", AddrKey payer);
               ("proposalOwnerRecord", AddrKey proposalOwnerRecordKey) ] ;;
    ret [tx1; tx2; tx3]
  end.

End Builders.

(** ** Notions used by the statements *)

(** The address derivations recorded in a trace, in order. *)
Fixpoint derivations (evs : list Event) : list (list (list byte) * PublicKey) :=
  match evs with
  | [] => []
  | AddressDerived seeds owner :: rest => (seeds, owner) :: derivations rest
  | _ :: rest => derivations rest
  end.

(** The transactions constructed in a trace, in order. *)
Fixpoint constructed (evs : list Event) : list Transaction :=
  match evs with
  | [] => []
  | TransactionBuilt t :: rest => t :: constructed rest
  | _ :: rest => constructed rest
  end.

Definition methodName (call : MethodCall) : string :=
  match call with
  | createProposal _ _ _ _ _ _ => "createProposal"
  | insertTransaction _ _ _ _ => "insertTransaction"
  | signOffProposal => "signOffProposal"
  end.

(** A computation [emits P] when, from every world, it appends to the trace
    only events that satisfy [P]. *)
Definition emits {A} (P : Event -> Prop) (m : Async A) : Prop :=
  forall w, exists new, trace (snd (m w)) = trace w ++ new /\ Forall P new.

(** An event is well owned when, if it is a derivation, the owning program
    is the constant [GOVERNANCE_PROGRAM_ID]. *)
Definition derivedUnderGovernanceProgram {platform : Platform} (e : Event) : Prop :=
  match e with
  | AddressDerived _ owner => owner = GOVERNANCE_PROGRAM_ID
  | _ => True
  end.


(** The three single builders run one after the other, the addresses that
    [createProposalTx] returns being handed to the two others. *)
Definition individualBuilders {platform : Platform} (governanceProgram : Program)
    (realmKey governanceKey : Address) (proposalName : string)
    (instructions : list TransactionInstruction) (councilVote : option bool)
  : Async (list Transaction) :=
  created <- createProposalTx governanceProgram realmKey governanceKey
               proposalName councilVote ;;
  inserted <- insertTransactionTx governanceProgram governanceKey
                (AddrKey (proposalAddress created))
                (AddrKey (proposalOwnerRecordKey created)) 0 instructions ;;
  signedOff <- createProposalSignOffTx governanceProgram realmKey governanceKey
                 (AddrKey (proposalOwnerRecordKey created))
                 (AddrKey (proposalAddress created)) ;;
  ret [tx created; inserted; signedOff].




(** ** A concrete platform and realm for running the builders *)
Module Fixture.

Definition key (b : byte) : PublicKey := mkPublicKey (repeat b 32).

(** Derivation stand-in: the seeds and the owner laid end to end. *)
Definition platform : Platform :=
  {| GOVERNANCE_PROGRAM_ID := key "G"%byte;
     GOVERNANCE_PROGRAM_SEED := "governance";
     SystemProgram_programId := key x00;
     SYSVAR_RENT_PUBKEY := key "R"%byte;
     bs58_decode := fun _ => None;
     findProgramAddress := fun seeds owner =>
       (mkPublicKey (List.concat seeds ++ toBuffer owner), 255%Z);
     generateKeypair := fun n => key (byte_of_N (N.of_nat n)) |}.

Definition realmKey : Address := AddrKey (key "r"%byte).
Definition governanceKey : Address := AddrKey (key "g"%byte).

Definition realm : RealmV2 :=
  {| communityMint := key "m"%byte;
     config := {| councilMint := Some (key "c"%byte) |} |}.

Definition wallet : AnchorWallet := {| wallet_publicKey := key "w"%byte |}.

Definition mainnet : Connection := {| fetchRealmV2 := fun _ => Ok (Some realm) |}.

Definition emptyChain : Connection := {| fetchRealmV2 := fun _ => Ok None |}.

Definition program : Program :=
  createSplGovernanceProgram (platform := platform) wallet mainnet None.

Definition programOnEmptyChain : Program :=
  createSplGovernanceProgram (platform := platform) wallet emptyChain None.

(** A handle created with an overriding program id. *)
Definition customProgram : Program :=
  createSplGovernanceProgram (platform := platform) wallet mainnet
    (Some (key "X"%byte)).

Definition proposalKey : Address := AddrKey (key "p"%byte).
Definition ownerRecordKey : Address := AddrKey (key "o"%byte).

Definition transfer : TransactionInstruction :=
  {| keys := [ {| pubkey := key "a"%byte; isSigner := true; isWritable := true |};
               {| pubkey := key "b"%byte; isSigner := false; isWritable := true |} ];
     ix_programId := key x00;
     ix_data := [x02; x00; x00; x00] |}.

Definition start : World := {| entropy := 0; trace := [] |}.

(** A realm without council mint, and a handle on a chain that holds it. *)
Definition communityRealm : RealmV2 :=
  {| communityMint := key "m"%byte; config := {| councilMint := None |} |}.

Definition communityChain : Connection :=
  {| fetchRealmV2 := fun _ => Ok (Some communityRealm) |}.

Definition communityProgram : Program :=
  createSplGovernanceProgram (platform := platform) wallet communityChain None.

(** A string that is not base58 on this platform. *)
Definition malformedKey : Address := AddrStr "not a key".

End Fixture.

(** ** Laws of the monad and of the trace *)

Section Laws.

Context {platform : Platform}.

Lemma derivations_app (xs ys : list Event) :
  derivations (xs ++ ys) = derivations xs ++ derivations ys.
Proof.
  induction xs as [|[a|k|s o|t] xs IH]; simpl; auto.
  now rewrite IH.
Qed.

Lemma constructed_app (xs ys : list Event) :
  constructed (xs ++ ys) = constructed xs ++ constructed ys.
Proof.
  induction xs as [|[a|k|s o|t] xs IH]; simpl; auto.
  now rewrite IH.
Qed.

Lemma emits_ret {A} (P : Event -> Prop) (a : A) : emits P (ret a).
Proof. intros w. exists []. simpl. now rewrite app_nil_r. Qed.

Lemma emits_throw {A} (P : Event -> Prop) (e : Exn) : emits P (@throw A e).
Proof. intros w. exists []. simpl. now rewrite app_nil_r. Qed.

Lemma emits_lift {A} (P : Event -> Prop) (r : result A) : emits P (lift r).
Proof. intros w. exists []. simpl. now rewrite app_nil_r. Qed.

Lemma emits_bind {A B} (P : Event -> Prop) (m : Async A) (k : A -> Async B) :
  emits P m -> (forall a, emits P (k a)) -> emits P (bind m k).
Proof.
  intros Hm Hk w. unfold bind.
  destruct (Hm w) as [new1 [E1 F1]].
  destruct (m w) as [[a|e] w1] eqn:Em; simpl in E1.
  - destruct (Hk a w1) as [new2 [E2 F2]].
    exists (new1 ++ new2). split.
    + rewrite E2, E1. now rewrite app_assoc.
    + apply Forall_app. now split.
  - exists new1. simpl. now split.
Qed.

Lemma emits_log {A} (P : Event -> Prop) (e : Event) (r : result A) :
  P e -> emits P (fun w => (r, log e w)).
Proof. intros HP w. exists [e]. simpl. split; auto. Qed.

Lemma emits_nonNull (P : Event -> Prop) (v : option PublicKey) : emits P (nonNull v).
Proof. destruct v; [apply emits_ret | apply emits_throw]. Qed.

Lemma emits_Keypair (P : Event -> Prop) :
  (forall k, P (KeypairGenerated k)) -> emits P Keypair_new_publicKey.
Proof. intros HP w. eexists [_]. simpl. split; [reflexivity | auto]. Qed.

Lemma emits_fetch (P : Event -> Prop) gp address :
  P (RealmFetched address) -> emits P (account_realmV2_fetch gp address).
Proof. intros HP. unfold account_realmV2_fetch. now apply emits_log. Qed.

Lemma emits_derive (P : Event -> Prop) seeds owner :
  P (AddressDerived seeds owner) -> emits P (findProgramAddressSync seeds owner).
Proof. intros HP. unfold findProgramAddressSync. now apply emits_log. Qed.

Lemma emits_transaction_of (P : Event -> Prop) gp call accs :
  P (TransactionBuilt {| tx_programId := program_programId gp;
                         tx_method := call;
                         tx_accounts := accs |}) ->
  emits P (methods_transaction gp call accs).
Proof.
  intros HP. unfold methods_transaction.
  apply emits_bind; [apply emits_lift|]. intros _.
  apply emits_bind; [apply emits_lift|]. intros _.
  cbv zeta. now apply emits_log.
Qed.


End Laws.

(** ** The byte encodings *)

Section Encoding.

Lemma to_N_byte_of_N (n : N) : Byte.to_N (byte_of_N n) = (n mod 256)%N.
Proof.
  unfold byte_of_N.
  destruct (Byte.of_N (n mod 256)) as [b|] eqn:E.
  - now apply Byte.to_of_N.
  - apply Byte.of_N_None_iff in E.
    pose proof (N.mod_lt n 256 ltac:(lia)). lia.
Qed.

Lemma little_endian_length (len : nat) (n : N) :
  List.length (little_endian len n) = len.
Proof.
  revert n. induction len as [|len IH]; intros n; simpl; auto.
Qed.

(** Reading back what was written gives the number modulo 256^len. *)
Lemma of_little_endian_mod (len : nat) (n : N) :
  of_little_endian (little_endian len n) = (n mod 256 ^ N.of_nat len)%N.
Proof.
  revert n. induction len as [|len IH]; intros n.
  - simpl. now rewrite N.mod_1_r.
  - cbn [little_endian of_little_endian].
    rewrite IH, to_N_byte_of_N.
    rewrite Nat2N.inj_succ, N.pow_succ_r'.
    rewrite (N.Div0.mod_mul_r n 256 (256 ^ N.of_nat len)). reflexivity.
Qed.

Lemma of_little_endian_fits (len : nat) (n : N) :
  (n < 256 ^ N.of_nat len)%N ->
  of_little_endian (little_endian len n) = n.
Proof.
  intros H. rewrite of_little_endian_mod. now apply N.mod_small.
Qed.

Lemma little_endian_inj (len : nat) (n m : N) :
  (n < 256 ^ N.of_nat len)%N -> (m < 256 ^ N.of_nat len)%N ->
  little_endian len n = little_endian len m -> n = m.
Proof.
  intros Hn Hm E.
  rewrite <- (of_little_endian_fits len n Hn), <- (of_little_endian_fits len m Hm).
  now rewrite E.
Qed.

Lemma size_le_16 (n : N) : (N.size n <= 16 <-> n < 65536)%N.
Proof.
  destruct (N.eq_dec n 0) as [->|Hn]; [simpl; lia|].
  rewrite N.size_log2 by assumption.
  change 65536%N with (2 ^ 16)%N.
  rewrite (N.log2_lt_pow2 n 16) by lia. lia.
Qed.

Lemma byteLength_le_2 (b : BN) :
  (byteLength b <= 2 <-> magnitude b < 65536)%N.
Proof.
  unfold byteLength. rewrite <- size_le_16.
  assert (E := N.div_mod (N.size (magnitude b) + 7) 8 ltac:(lia)).
  assert (B := N.mod_lt (N.size (magnitude b) + 7) 8 ltac:(lia)).
  set (q := ((N.size (magnitude b) + 7) / 8)%N) in *.
  set (r := ((N.size (magnitude b) + 7) mod 8)%N) in *.
  clearbody q r. lia.
Qed.

Lemma encodeIndex_fits (txIndex : Z) :
  (Z.abs txIndex < 65536)%Z ->
  BN_new txIndex = Ok {| negative := (txIndex <? 0)%Z; magnitude := Z.abs_N txIndex |} /\
  toArrayLike_le {| negative := (txIndex <? 0)%Z; magnitude := Z.abs_N txIndex |} 2
    = Ok (little_endian 2 (Z.abs_N txIndex)).
Proof.
  intros H. split.
  - unfold BN_new.
    destruct (Z.abs txIndex <? 2 ^ 53)%Z eqn:E; [reflexivity|].
    apply Z.ltb_ge in E. change (2 ^ 53)%Z with 9007199254740992%Z in E. lia.
  - unfold toArrayLike_le.
    destruct (N.leb_spec (byteLength {| negative := (txIndex <? 0)%Z;
                                        magnitude := Z.abs_N txIndex |}) (N.of_nat 2))
      as [L|L]; [reflexivity|].
    exfalso. change (N.of_nat 2) with 2%N in L.
    assert (~ (byteLength {| negative := (txIndex <? 0)%Z;
                             magnitude := Z.abs_N txIndex |} <= 2)%N) as L' by lia.
    apply L'. apply byteLength_le_2. simpl. lia.
Qed.

Lemma encodeIndex_too_wide (txIndex : Z) :
  (65536 <= Z.abs txIndex < 2 ^ 53)%Z ->
  BN_new txIndex = Ok {| negative := (txIndex <? 0)%Z; magnitude := Z.abs_N txIndex |} /\
  toArrayLike_le {| negative := (txIndex <? 0)%Z; magnitude := Z.abs_N txIndex |} 2
    = Throw (Error "byte array longer than desired length").
Proof.
  intros [Hlo Hhi]. split.
  - unfold BN_new. apply Z.ltb_lt in Hhi. now rewrite Hhi.
  - unfold toArrayLike_le.
    destruct (N.leb_spec (byteLength {| negative := (txIndex <? 0)%Z;
                                        magnitude := Z.abs_N txIndex |}) (N.of_nat 2))
      as [L|L]; [|reflexivity].
    exfalso. change (N.of_nat 2) with 2%N in L.
    apply byteLength_le_2 in L. simpl in L. lia.
Qed.

Lemma BN_new_unsafe (txIndex : Z) :
  (2 ^ 53 <= Z.abs txIndex)%Z ->
  BN_new txIndex = Throw (Error "Assertion failed").
Proof.
  intros H. unfold BN_new. apply Z.ltb_ge in H. now rewrite H.
Qed.

End Encoding.

(** ** Running the builders *)

(** Unfolds a builder down to the steps of the monad. *)
Ltac run :=
  unfold createProposalTx, createProposalWithInstructionsTransactions,
    insertTransactionTx, createProposalSignOffTx,
    account_realmV2_fetch, Keypair_new_publicKey, findProgramAddressSync,
    methods_transaction, nonNull, bind, lift, ret, throw, log; simpl.

Section Runs.

Context {platform : Platform}.

(** A successful run of [createProposalTx], step by step. *)
Lemma createProposalTx_run gp realmKey governanceKey name cv w realm rk gk mint :
  fetchRealmV2 (connection (provider gp)) realmKey = Ok (Some realm) ->
  PublicKey_new realmKey = Ok rk ->
  PublicKey_new governanceKey = Ok gk ->
  selectGoverningTokenMint (defaultTo false cv) realm = Some mint ->
  let seed := generateKeypair (entropy w) in
  let payer := provider_publicKey (provider gp) in
  let d1 := [Buffer_from GOVERNANCE_PROGRAM_SEED; toBuffer gk; toBuffer mint; toBuffer seed] in
  let pa := fst (findProgramAddress d1 GOVERNANCE_PROGRAM_ID) in
  let d2 := [Buffer_from GOVERNANCE_PROGRAM_SEED; toBuffer rk; toBuffer mint; toBuffer payer] in
  let por := fst (findProgramAddress d2 GOVERNANCE_PROGRAM_ID) in
  let d3 := [Buffer_from "realm-config"; toBuffer rk] in
  let rc := fst (findProgramAddress d3 GOVERNANCE_PROGRAM_ID) in
  let d4 := [toBuffer pa; toBuffer payer] in
  let pd := fst (findProgramAddress d4 GOVERNANCE_PROGRAM_ID) in
  let t := {| tx_programId := program_programId gp;
              tx_method := createProposal name "" singleChoice ["Approve"] true seed;
              tx_accounts :=
                [ ("realm", realmKey);
                  ("proposalAddress", AddrKey pa);
                  ("governance", governanceKey);
                  ("proposalOwnerRecord", AddrKey por);
                  ("governanceAuthority", AddrKey payer);
                  ("payer", AddrKey payer);
                  ("governingTokenMint", AddrKey mint);
                  ("systemProgram", AddrKey SystemProgram_programId);
                  ("realmConfigAddress", AddrKey rc);
                  ("proposalDepositAddress", AddrKey pd) ] |} in
  createProposalTx gp realmKey governanceKey name cv w =
    (Ok {| tx := t; proposalAddress := pa; proposalOwnerRecordKey := por |},
     {| entropy := S (entropy w);
        trace := trace w ++
          [ RealmFetched realmKey;
            KeypairGenerated seed;
            AddressDerived d1 GOVERNANCE_PROGRAM_ID;
            AddressDerived d2 GOVERNANCE_PROGRAM_ID;
            AddressDerived d3 GOVERNANCE_PROGRAM_ID;
            AddressDerived d4 GOVERNANCE_PROGRAM_ID;
            TransactionBuilt t ] |}).
Proof.
  intros Hf Hr Hg Hm. run.
  rewrite Hf. simpl. rewrite Hg. simpl. rewrite Hm. simpl. rewrite Hr. simpl.
  repeat rewrite <- app_assoc. reflexivity.
Qed.

(** A run of [createProposalTx] that returns went through every step. *)
Lemma createProposalTx_Ok_inv gp realmKey governanceKey name cv w r w' :
  createProposalTx gp realmKey governanceKey name cv w = (Ok r, w') ->
  exists realm rk gk mint,
    fetchRealmV2 (connection (provider gp)) realmKey = Ok (Some realm) /\
    PublicKey_new realmKey = Ok rk /\
    PublicKey_new governanceKey = Ok gk /\
    selectGoverningTokenMint (defaultTo false cv) realm = Some mint.
Proof.
  run.
  destruct (fetchRealmV2 (connection (provider gp)) realmKey) as [[realm|]|e] eqn:Ef;
    simpl; try discriminate.
  destruct (PublicKey_new governanceKey) as [gk|e] eqn:Eg; simpl; try discriminate.
  destruct (selectGoverningTokenMint (defaultTo false cv) realm) as [mint|] eqn:Em;
    simpl; try discriminate.
  destruct (PublicKey_new realmKey) as [rk|e] eqn:Er; simpl; try discriminate.
  intros _. exists realm, rk, gk, mint. repeat split; assumption || reflexivity.
Qed.

(** The transaction step, case by case. *)
Lemma methods_transaction_Ok gp call accs w :
  translateAccounts accs = Ok tt ->
  encodeArguments call = Ok tt ->
  let t := {| tx_programId := program_programId gp;
              tx_method := call;
              tx_accounts := accs |} in
  methods_transaction gp call accs w = (Ok t, log (TransactionBuilt t) w).
Proof.
  intros Ha He. unfold methods_transaction, bind, lift.
  rewrite Ha, He. reflexivity.
Qed.


Lemma methods_transaction_Throw_arguments gp call accs w e :
  translateAccounts accs = Ok tt ->
  encodeArguments call = Throw e ->
  methods_transaction gp call accs w = (Throw e, w).
Proof.
  intros Ha He. unfold methods_transaction, bind, lift.
  rewrite Ha, He. reflexivity.
Qed.

Lemma methods_transaction_Ok_inv gp call accs w t w' :
  methods_transaction gp call accs w = (Ok t, w') ->
  translateAccounts accs = Ok tt /\ encodeArguments call = Ok tt.
Proof.
  unfold methods_transaction, bind, lift.
  destruct (translateAccounts accs) as [[]|e]; [|discriminate].
  destruct (encodeArguments call) as [[]|e]; [|discriminate].
  intros _. split; reflexivity.
Qed.

(** The index is encodable exactly when it is in 0..65535. *)
Lemma encodeArguments_insertTransaction optionIndex index holdUpTime records :
  encodeArguments (insertTransaction optionIndex index holdUpTime records) = Ok tt
  <-> (0 <= index < 65536)%Z.
Proof.
  unfold encodeArguments.
  destruct (Z.leb_spec 0 index) as [L|L], (Z.ltb_spec index 65536) as [U|U];
    simpl; split; intros R; try reflexivity; try discriminate; lia.
Qed.

(** [insertTransactionTx] up to its transaction step: with a proposal
    address that is a key and an index of at most two bytes, the nested
    address has been derived and the call is handed to Anchor. *)
Lemma insertTransactionTx_steps gp governanceKey proposalAddress ownerRecordKey
    txIndex instructions w proposal :
  PublicKey_new proposalAddress = Ok proposal ->
  (Z.abs txIndex < 65536)%Z ->
  let payer := provider_publicKey (provider gp) in
  let d := [ Buffer_from GOVERNANCE_PROGRAM_SEED; toBuffer proposal;
             little_endian 1 0; little_endian 2 (Z.abs_N txIndex) ] in
  let pta := fst (findProgramAddress d GOVERNANCE_PROGRAM_ID) in
  insertTransactionTx gp governanceKey proposalAddress ownerRecordKey
      txIndex instructions w =
    methods_transaction gp
      (insertTransaction 0 txIndex 0
         (map getInstructionDataFromInstruction instructions))
      [ ("governance", governanceKey);
        ("proposal", proposalAddress);
        ("tokenOwnerRecord", ownerRecordKey);
        ("governanceAuthority", AddrKey payer);
        ("proposalTransactionAddress", AddrKey pta);
        ("payer", AddrKey payer);
        ("systemProgram", AddrKey SystemProgram_programId);
        ("rent", AddrKey SYSVAR_RENT_PUBKEY) ]
      (log (AddressDerived d GOVERNANCE_PROGRAM_ID) w).
Proof.
  intros Hp Hi. destruct (encodeIndex_fits txIndex Hi) as [Hbn Harr].
  unfold insertTransactionTx, findProgramAddressSync, bind at 1 2 3 4 5 6, lift.
  rewrite Hp, Hbn. cbn [BN_new]. 
  assert (H1 : toArrayLike_le {| negative := (0 <? 0)%Z; magnitude := Z.abs_N 0 |} 1
               = Ok (little_endian 1 0)) by reflexivity.
  change (BN_new 0) with
    (Ok {| negative := (0 <? 0)%Z; magnitude := Z.abs_N 0 |}).
  cbv beta iota. rewrite H1, Harr. cbv beta iota zeta. reflexivity.
Qed.

(** The accounts of [insertTransaction] convert when the three keys given
    by the caller do. *)
Lemma translateAccounts_insertTransaction
    governanceKey proposalAddress ownerRecordKey a b c d e gk proposal ork :
  PublicKey_new governanceKey = Ok gk ->
  PublicKey_new proposalAddress = Ok proposal ->
  PublicKey_new ownerRecordKey = Ok ork ->
  translateAccounts
    [ ("governance", governanceKey);
      ("proposal", proposalAddress);
      ("tokenOwnerRecord", ownerRecordKey);
      ("governanceAuthority", AddrKey a);
      ("proposalTransactionAddress", AddrKey b);
      ("payer", AddrKey c);
      ("systemProgram", AddrKey d);
      ("rent", AddrKey e) ] = Ok tt.
Proof.
  intros Hg Hp Ho. simpl. rewrite Hg, Hp, Ho. reflexivity.
Qed.

(** A successful run of [insertTransactionTx]. *)
Lemma insertTransactionTx_run gp governanceKey proposalAddress ownerRecordKey
    txIndex instructions w proposal gk ork :
  PublicKey_new proposalAddress = Ok proposal ->
  PublicKey_new governanceKey = Ok gk ->
  PublicKey_new ownerRecordKey = Ok ork ->
  (0 <= txIndex < 65536)%Z ->
  let payer := provider_publicKey (provider gp) in
  let d := [ Buffer_from GOVERNANCE_PROGRAM_SEED; toBuffer proposal;
             little_endian 1 0; little_endian 2 (Z.abs_N txIndex) ] in
  let pta := fst (findProgramAddress d GOVERNANCE_PROGRAM_ID) in
  let t := {| tx_programId := program_programId gp;
              tx_method := insertTransaction 0 txIndex 0
                             (map getInstructionDataFromInstruction instructions);
              tx_accounts :=
                [ ("governance", governanceKey);
                  ("proposal", proposalAddress);
                  ("tokenOwnerRecord", ownerRecordKey);
                  ("governanceAuthority", AddrKey payer);
                  ("proposalTransactionAddress", AddrKey pta);
                  ("payer", AddrKey payer);
                  ("systemProgram", AddrKey SystemProgram_programId);
                  ("rent", AddrKey SYSVAR_RENT_PUBKEY) ] |} in
  insertTransactionTx gp governanceKey proposalAddress ownerRecordKey
      txIndex instructions w =
    (Ok t, {| entropy := entropy w;
              trace := trace w ++
                [ AddressDerived d GOVERNANCE_PROGRAM_ID; TransactionBuilt t ] |}).
Proof.
  intros Hp Hg Ho Hi.
  pose proof (insertTransactionTx_steps gp governanceKey proposalAddress
                ownerRecordKey txIndex instructions w proposal Hp ltac:(lia)) as E.
  cbv zeta in E. cbv zeta. rewrite E.
  pose proof (methods_transaction_Ok gp
                (insertTransaction 0 txIndex 0
                   (map getInstructionDataFromInstruction instructions))) as B.
  cbv zeta in B. rewrite B.
  - unfold log. cbn [entropy trace]. rewrite <- app_assoc. reflexivity.
  - eapply translateAccounts_insertTransaction; eassumption.
  - apply encodeArguments_insertTransaction. exact Hi.
Qed.

(** A successful run of the composite builder. *)
Lemma composite_run gp realmKey governanceKey name instructions cv w realm rk gk mint :
  fetchRealmV2 (connection (provider gp)) realmKey = Ok (Some realm) ->
  PublicKey_new realmKey = Ok rk ->
  PublicKey_new governanceKey = Ok gk ->
  selectGoverningTokenMint (defaultTo false cv) realm = Some mint ->
  let seed := generateKeypair (entropy w) in
  let payer := provider_publicKey (provider gp) in
  let d1 := [Buffer_from GOVERNANCE_PROGRAM_SEED; toBuffer gk; toBuffer mint; toBuffer seed] in
  let pa := fst (findProgramAddress d1 GOVERNANCE_PROGRAM_ID) in
  let d2 := [Buffer_from GOVERNANCE_PROGRAM_SEED; toBuffer rk; toBuffer mint; toBuffer payer] in
  let por := fst (findProgramAddress d2 GOVERNANCE_PROGRAM_ID) in
  let d3 := [Buffer_from "realm-config"; toBuffer rk] in
  let rc := fst (findProgramAddress d3 GOVERNANCE_PROGRAM_ID) in
  let d4 := [toBuffer pa; toBuffer payer] in
  let pd := fst (findProgramAddress d4 GOVERNANCE_PROGRAM_ID) in
  let d5 := [Buffer_from GOVERNANCE_PROGRAM_SEED; toBuffer pa;
             little_endian 1 0; little_endian 2 0] in
  let pta := fst (findProgramAddress d5 GOVERNANCE_PROGRAM_ID) in
  let t1 := {| tx_programId := program_programId gp;
               tx_method := createProposal name "" singleChoice ["Approve"] true seed;
               tx_accounts :=
                 [ ("realm", realmKey);
                   ("proposalAddress", AddrKey pa);
                   ("governance", governanceKey);
                   ("proposalOwnerRecord", AddrKey por);
                   ("governanceAuthority", AddrKey payer);
                   ("payer", AddrKey payer);
                   ("governingTokenMint", AddrKey mint);
                   ("systemProgram", AddrKey SystemProgram_programId);
                   ("realmConfigAddress", AddrKey rc);
                   ("proposalDepositAddress", AddrKey pd) ] |} in
  let t2 := {| tx_programId := program_programId gp;
               tx_method := insertTransaction 0 0 0
                              (map getInstructionDataFromInstruction instructions);
               tx_accounts :=
                 [ ("governance", governanceKey);
                   ("proposal", AddrKey pa);
                   ("tokenOwnerRecord", AddrKey por);
                   ("governanceAuthority", AddrKey payer);
                   ("proposalTransactionAddress", AddrKey pta);
                   ("payer", AddrKey payer);
                   ("systemProgram", AddrKey SystemProgram_programId);
                   ("rent", AddrKey SYSVAR_RENT_PUBKEY) ] |} in
  let t3 := {| tx_programId := program_programId gp;
               tx_method := signOffProposal;
               tx_accounts :=
                 [ ("realm", realmKey);
                   ("governance", governanceKey);
                   ("proposal", AddrKey pa);
                   ("signatory", AddrKey payer);
                   ("proposalOwnerRecord", AddrKey por) ] |} in
  createProposalWithInstructionsTransactions gp realmKey governanceKey name
      instructions cv w =
    (Ok [t1; t2; t3],
     {| entropy := S (entropy w);
        trace := trace w ++
          [ RealmFetched realmKey;
            KeypairGenerated seed;
            AddressDerived d1 GOVERNANCE_PROGRAM_ID;
            AddressDerived d2 GOVERNANCE_PROGRAM_ID;
            AddressDerived d3 GOVERNANCE_PROGRAM_ID;
            AddressDerived d4 GOVERNANCE_PROGRAM_ID;
            AddressDerived d5 GOVERNANCE_PROGRAM_ID;
            TransactionBuilt t1; TransactionBuilt t2; TransactionBuilt t3 ] |}).
Proof.
  intros Hf Hr Hg Hm. run.
  rewrite Hf. simpl. rewrite Hg. simpl. rewrite Hm. simpl. rewrite Hr. simpl.
  repeat rewrite <- app_assoc. reflexivity.
Qed.

(** A run of the composite builder that returns went through every step. *)
Lemma composite_Ok_inv gp realmKey governanceKey name instructions cv w txs w' :
  createProposalWithInstructionsTransactions gp realmKey governanceKey name
      instructions cv w = (Ok txs, w') ->
  exists realm rk gk mint,
    fetchRealmV2 (connection (provider gp)) realmKey = Ok (Some realm) /\
    PublicKey_new realmKey = Ok rk /\
    PublicKey_new governanceKey = Ok gk /\
    selectGoverningTokenMint (defaultTo false cv) realm = Some mint.
Proof.
  run.
  destruct (fetchRealmV2 (connection (provider gp)) realmKey) as [[realm|]|e] eqn:Ef;
    simpl; try discriminate.
  destruct (PublicKey_new governanceKey) as [gk|e] eqn:Eg; simpl; try discriminate.
  destruct (selectGoverningTokenMint (defaultTo false cv) realm) as [mint|] eqn:Em;
    simpl; try discriminate.
  destruct (PublicKey_new realmKey) as [rk|e] eqn:Er; simpl; try discriminate.
  intros _. exists realm, rk, gk, mint. repeat split; assumption || reflexivity.
Qed.

(** A run of [insertTransactionTx] that returns had three keys that are
    public keys and an index in 0..65535. *)
Lemma insertTransactionTx_Ok_inv gp governanceKey proposalAddress ownerRecordKey
    txIndex instructions w t w' :
  insertTransactionTx gp governanceKey proposalAddress ownerRecordKey
      txIndex instructions w = (Ok t, w') ->
  (exists proposal, PublicKey_new proposalAddress = Ok proposal) /\
  (exists gk, PublicKey_new governanceKey = Ok gk) /\
  (exists ork, PublicKey_new ownerRecordKey = Ok ork) /\
  (0 <= txIndex < 65536)%Z.
Proof.
  intros H.
  destruct (PublicKey_new proposalAddress) as [proposal|e] eqn:Ep.
  2:{ revert H. run. rewrite Ep. simpl. discriminate. }
  destruct (Z_lt_ge_dec (Z.abs txIndex) 65536) as [L|G].
  - pose proof (insertTransactionTx_steps gp governanceKey proposalAddress
                  ownerRecordKey txIndex instructions w proposal Ep L) as E.
    cbv zeta in E. rewrite E in H.
    apply methods_transaction_Ok_inv in H. destruct H as [Ha He].
    apply encodeArguments_insertTransaction in He.
    simpl in Ha.
    destruct (PublicKey_new governanceKey) as [gk|e1]; [|discriminate].
    rewrite Ep in Ha.
    destruct (PublicKey_new ownerRecordKey) as [ork|e2]; [|discriminate].
    split; [now exists proposal|]. split; [now exists gk|].
    split; [now exists ork|]. exact He.
  - exfalso.
    destruct (Z_lt_ge_dec (Z.abs txIndex) (2 ^ 53)) as [L2|G2].
    + destruct (encodeIndex_too_wide txIndex ltac:(lia)) as [Hbn Harr].
      revert H. run. rewrite Ep. simpl. rewrite Hbn. simpl.
      rewrite Harr. simpl. discriminate.
    + pose proof (BN_new_unsafe txIndex ltac:(lia)) as Hbn.
      revert H. run. rewrite Ep. simpl. rewrite Hbn. simpl. discriminate.
Qed.

(** The transaction step either constructs its transaction or throws and
    records nothing. *)
Lemma methods_transaction_cases gp call accs w :
  let t := {| tx_programId := program_programId gp;
              tx_method := call;
              tx_accounts := accs |} in
  (translateAccounts accs = Ok tt /\ encodeArguments call = Ok tt /\
   methods_transaction gp call accs w = (Ok t, log (TransactionBuilt t) w)) \/
  (exists e, methods_transaction gp call accs w = (Throw e, w)).
Proof.
  intros t. subst t. unfold methods_transaction, bind, lift.
  destruct (translateAccounts accs) as [[]|e]; [|right; now exists e].
  destruct (encodeArguments call) as [[]|e]; [|right; now exists e].
  left. repeat split.
Qed.

(** An index of more than two bytes stops [insertTransactionTx] before it
    derives anything. *)
Lemma insertTransactionTx_too_wide gp governanceKey proposalAddress ownerRecordKey
    txIndex instructions w proposal :
  PublicKey_new proposalAddress = Ok proposal ->
  (65536 <= Z.abs txIndex)%Z ->
  exists e,
    insertTransactionTx gp governanceKey proposalAddress ownerRecordKey
      txIndex instructions w = (Throw e, w).
Proof.
  intros Hp G.
  destruct (Z_lt_ge_dec (Z.abs txIndex) (2 ^ 53)) as [L2|G2].
  - destruct (encodeIndex_too_wide txIndex ltac:(lia)) as [Hbn Harr].
    eexists. run. rewrite Hp. simpl. rewrite Hbn. simpl. rewrite Harr. reflexivity.
  - pose proof (BN_new_unsafe txIndex ltac:(lia)) as Hbn.
    eexists. run. rewrite Hp. simpl. rewrite Hbn. reflexivity.
Qed.

(** With a proposal address that is a key and an index of at most two
    bytes, [insertTransactionTx] derives its one address whether or not it
    returns. *)
Lemma insertTransactionTx_derives gp governanceKey proposalAddress ownerRecordKey
    txIndex instructions w proposal :
  PublicKey_new proposalAddress = Ok proposal ->
  (Z.abs txIndex < 65536)%Z ->
  derivations (events (insertTransactionTx gp governanceKey proposalAddress
                         ownerRecordKey txIndex instructions w)) =
    derivations (trace w) ++
      [ ([ Buffer_from GOVERNANCE_PROGRAM_SEED; toBuffer proposal;
           little_endian 1 0; little_endian 2 (Z.abs_N txIndex) ],
         GOVERNANCE_PROGRAM_ID) ].
Proof.
  intros Hp Hi.
  pose proof (insertTransactionTx_steps gp governanceKey proposalAddress
                ownerRecordKey txIndex instructions w proposal Hp Hi) as E.
  cbv zeta in E. unfold events. rewrite E.
  match goal with
  | |- context [methods_transaction ?g ?c ?a ?w0] =>
      destruct (methods_transaction_cases g c a w0) as [(_ & _ & B)|[e B]]
  end; cbv zeta in B; rewrite B; cbn [snd log trace];
    rewrite !derivations_app; simpl; rewrite ?app_nil_r; reflexivity.
Qed.

(** The transaction that [insertTransactionTx] returns, when it returns. *)
Lemma insertTransactionTx_returns gp governanceKey proposalAddress ownerRecordKey
    txIndex instructions w proposal t :
  PublicKey_new proposalAddress = Ok proposal ->
  outcome (insertTransactionTx gp governanceKey proposalAddress ownerRecordKey
             txIndex instructions w) = Ok t ->
  let payer := provider_publicKey (provider gp) in
  let d := [ Buffer_from GOVERNANCE_PROGRAM_SEED; toBuffer proposal;
             little_endian 1 0; little_endian 2 (Z.abs_N txIndex) ] in
  t = {| tx_programId := program_programId gp;
         tx_method := insertTransaction 0 txIndex 0
                        (map getInstructionDataFromInstruction instructions);
         tx_accounts :=
           [ ("governance", governanceKey);
             ("proposal", proposalAddress);
             ("tokenOwnerRecord", ownerRecordKey);
             ("governanceAuthority", AddrKey payer);
             ("proposalTransactionAddress",
              AddrKey (fst (findProgramAddress d GOVERNANCE_PROGRAM_ID)));
             ("payer", AddrKey payer);
             ("systemProgram", AddrKey SystemProgram_programId);
             ("rent", AddrKey SYSVAR_RENT_PUBKEY) ] |}.
Proof.
  intros Hp Ht. unfold outcome in Ht.
  destruct (insertTransactionTx gp governanceKey proposalAddress ownerRecordKey
              txIndex instructions w) as [res w'] eqn:R.
  simpl in Ht. subst res.
  destruct (insertTransactionTx_Ok_inv _ _ _ _ _ _ _ _ _ R)
    as (_ & [gk Hg] & [ork Ho] & Hi).
  pose proof (insertTransactionTx_run gp governanceKey proposalAddress
                ownerRecordKey txIndex instructions w proposal gk ork
                Hp Hg Ho Hi) as R1.
  cbv zeta in R1. rewrite R1 in R. injection R as Et _. subst t. reflexivity.
Qed.

End Runs.

(** ** The builders' properties *)

Section Properties.

Context {platform : Platform}.

(** C1. A call of [createProposalTx] on a realm that is fetched, with keys
    that are public keys, derives exactly four addresses, in this order,
    all under the governance program id: the proposal address from
    [governance seed, governance key, governing token mint, proposal seed],
    the proposal owner record from [governance seed, realm key, governing
    token mint, caller's public key], the realm config address from
    ["realm-config", realm key] and the proposal deposit address from
    [proposal address, caller's public key]; the transaction it returns
    carries these four addresses. *)
Theorem createProposalTx_derives_four_addresses
    gp realmKey governanceKey name cv w realm rk gk mint :
  fetchRealmV2 (connection (provider gp)) realmKey = Ok (Some realm) ->
  PublicKey_new realmKey = Ok rk ->
  PublicKey_new governanceKey = Ok gk ->
  selectGoverningTokenMint (defaultTo false cv) realm = Some mint ->
  let caller := provider_publicKey (provider gp) in
  let proposalSeed := generateKeypair (entropy w) in
  let proposalSeeds :=
    [Buffer_from GOVERNANCE_PROGRAM_SEED; toBuffer gk; toBuffer mint; toBuffer proposalSeed] in
  let ownerRecordSeeds :=
    [Buffer_from GOVERNANCE_PROGRAM_SEED; toBuffer rk; toBuffer mint; toBuffer caller] in
  let realmConfigSeeds := [Buffer_from "realm-config"; toBuffer rk] in
  let proposal := fst (findProgramAddress proposalSeeds GOVERNANCE_PROGRAM_ID) in
  let depositSeeds := [toBuffer proposal; toBuffer caller] in
  let call := createProposalTx gp realmKey governanceKey name cv w in
  derivations (events call) =
    derivations (trace w) ++
      [ (proposalSeeds, GOVERNANCE_PROGRAM_ID);
        (ownerRecordSeeds, GOVERNANCE_PROGRAM_ID);
        (realmConfigSeeds, GOVERNANCE_PROGRAM_ID);
        (depositSeeds, GOVERNANCE_PROGRAM_ID) ] /\
  exists r, outcome call = Ok r /\
    account "proposalAddress" (tx r) = Some (AddrKey proposal) /\
    account "proposalOwnerRecord" (tx r) =
      Some (AddrKey (fst (findProgramAddress ownerRecordSeeds GOVERNANCE_PROGRAM_ID))) /\
    account "realmConfigAddress" (tx r) =
      Some (AddrKey (fst (findProgramAddress realmConfigSeeds GOVERNANCE_PROGRAM_ID))) /\
    account "proposalDepositAddress" (tx r) =
      Some (AddrKey (fst (findProgramAddress depositSeeds GOVERNANCE_PROGRAM_ID))).
Proof.
  intros Hf Hr Hg Hm caller proposalSeed proposalSeeds ownerRecordSeeds
    realmConfigSeeds proposal depositSeeds call.
  pose proof (createProposalTx_run gp realmKey governanceKey name cv w
                realm rk gk mint Hf Hr Hg Hm) as E.
  cbv zeta in E. subst call. unfold events, outcome. rewrite E. cbn [fst snd trace].
  split.
  - rewrite derivations_app. reflexivity.
  - eexists. split; [reflexivity|]. repeat split.
Qed.

(** C2. The composite builder and the three single builders chained from
    the same world (hence with the same proposal seed) have the same
    outcome; when the composite returns, it returns exactly three
    transactions, create-proposal, insert-transaction and sign-off in this
    order, which are the transactions of [createProposalTx], of
    [insertTransactionTx] at index 0 and of [createProposalSignOffTx], and
    all three name the proposal address and the owner record that
    [createProposalTx] returns. *)
Theorem composite_agrees_with_single_builders
    gp realmKey governanceKey name instructions cv w :
  let composite :=
    createProposalWithInstructionsTransactions gp realmKey governanceKey name
      instructions cv w in
  outcome composite =
    outcome (individualBuilders gp realmKey governanceKey name instructions cv w) /\
  forall txs, outcome composite = Ok txs ->
    exists created t2 t3,
      txs = [tx created; t2; t3] /\
      map (fun t => methodName (tx_method t)) txs =
        ["createProposal"; "insertTransaction"; "signOffProposal"] /\
      outcome (createProposalTx gp realmKey governanceKey name cv w) = Ok created /\
      (forall w1, outcome (insertTransactionTx gp governanceKey
                    (AddrKey (proposalAddress created))
                    (AddrKey (proposalOwnerRecordKey created)) 0 instructions w1)
                  = Ok t2) /\
      (forall w2, outcome (createProposalSignOffTx gp realmKey governanceKey
                    (AddrKey (proposalOwnerRecordKey created))
                    (AddrKey (proposalAddress created)) w2) = Ok t3) /\
      account "proposalAddress" (tx created) = Some (AddrKey (proposalAddress created)) /\
      account "proposal" t2 = Some (AddrKey (proposalAddress created)) /\
      account "proposal" t3 = Some (AddrKey (proposalAddress created)) /\
      account "proposalOwnerRecord" (tx created) =
        Some (AddrKey (proposalOwnerRecordKey created)) /\
      account "tokenOwnerRecord" t2 = Some (AddrKey (proposalOwnerRecordKey created)) /\
      account "proposalOwnerRecord" t3 = Some (AddrKey (proposalOwnerRecordKey created)).
Proof.
  intros composite. subst composite. split.
  - unfold outcome, individualBuilders. run.
    destruct (fetchRealmV2 (connection (provider gp)) realmKey) as [[realm|]|e];
      simpl; try reflexivity.
    destruct (PublicKey_new governanceKey) as [gk|e]; simpl; try reflexivity.
    destruct (selectGoverningTokenMint (defaultTo false cv) realm) as [mint|];
      simpl; try reflexivity.
    destruct (PublicKey_new realmKey) as [rk|e]; simpl; reflexivity.
  - intros txs H. unfold outcome in H.
    destruct (createProposalWithInstructionsTransactions gp realmKey governanceKey
                name instructions cv w) as [res w'] eqn:E.
    simpl in H. subst res.
    destruct (composite_Ok_inv _ _ _ _ _ _ _ _ _ E) as (realm & rk & gk & mint & Hf & Hr & Hg & Hm).
    pose proof (composite_run gp realmKey governanceKey name instructions cv w
                  realm rk gk mint Hf Hr Hg Hm) as Ec.
    cbv zeta in Ec. rewrite Ec in E. injection E as Etxs _.
    pose proof (createProposalTx_run gp realmKey governanceKey name cv w
                  realm rk gk mint Hf Hr Hg Hm) as E1.
    cbv zeta in E1.
    match type of E1 with _ = (Ok ?c, _) => exists c end.
    subst txs. do 2 eexists. unfold outcome. rewrite E1.
    cbn [fst tx proposalAddress proposalOwnerRecordKey].
    split; [reflexivity|].
    split; [reflexivity|]. split; [reflexivity|].
    split; [intros w1; run; rewrite Hg; reflexivity|].
    split; [intros w2; run; rewrite Hr, Hg; reflexivity|].
    repeat split.
Qed.

(** C3. On a fetched realm, with keys that are public keys, both
    [createProposalTx] and the composite builder take the realm's council
    mint as governing token mint when [councilVote] is true and the realm's
    community mint when it is false or omitted: the selected mint is the
    [governingTokenMint] account of the create-proposal transaction and the
    third seed of the proposal derivation. *)
Theorem governing_token_mint_selection
    gp realmKey governanceKey name instructions cv w realm rk gk mint :
  fetchRealmV2 (connection (provider gp)) realmKey = Ok (Some realm) ->
  PublicKey_new realmKey = Ok rk ->
  PublicKey_new governanceKey = Ok gk ->
  match cv with
  | Some true => councilMint (config realm)
  | Some false | None => Some (communityMint realm)
  end = Some mint ->
  let proposalSeeds :=
    [ Buffer_from GOVERNANCE_PROGRAM_SEED; toBuffer gk; toBuffer mint;
      toBuffer (generateKeypair (entropy w)) ] in
  (exists r,
     outcome (createProposalTx gp realmKey governanceKey name cv w) = Ok r /\
     account "governingTokenMint" (tx r) = Some (AddrKey mint) /\
     proposalAddress r = fst (findProgramAddress proposalSeeds GOVERNANCE_PROGRAM_ID)) /\
  (exists t1 t2 t3,
     outcome (createProposalWithInstructionsTransactions gp realmKey governanceKey
                name instructions cv w) = Ok [t1; t2; t3] /\
     account "governingTokenMint" t1 = Some (AddrKey mint) /\
     account "proposalAddress" t1 =
       Some (AddrKey (fst (findProgramAddress proposalSeeds GOVERNANCE_PROGRAM_ID)))).
Proof.
  intros Hf Hr Hg Hsel proposalSeeds.
  assert (Hm : selectGoverningTokenMint (defaultTo false cv) realm = Some mint).
  { destruct cv as [[|]|]; exact Hsel. }
  split.
  - pose proof (createProposalTx_run gp realmKey governanceKey name cv w
                  realm rk gk mint Hf Hr Hg Hm) as E.
    cbv zeta in E. unfold outcome. rewrite E.
    eexists. split; [reflexivity|]. split; reflexivity.
  - pose proof (composite_run gp realmKey governanceKey name instructions cv w
                  realm rk gk mint Hf Hr Hg Hm) as E.
    cbv zeta in E. unfold outcome. rewrite E.
    do 3 eexists. split; [reflexivity|]. split; reflexivity.
Qed.

(** C4 (amended). For a proposal address that is a public key:
    an index whose magnitude does not fit in two bytes makes
    [insertTransactionTx] throw without deriving anything; for an index of
    magnitude below 65536 it derives exactly one address, from [governance
    seed, proposal address, option index 0 on one byte, the magnitude of
    txIndex on two bytes little-endian].  It returns exactly when, moreover,
    the index is not negative and the governance key and the owner record
    key are public keys, and the transaction then passes hold-up time 0 and
    names the derived address, the proposal and the owner record.  Another
    index changes no account of the transaction but
    [proposalTransactionAddress], whose seeds it does change. *)
Theorem insertTransactionTx_nested_address
    gp governanceKey proposalAddress ownerRecordKey txIndex instructions w proposal :
  PublicKey_new proposalAddress = Ok proposal ->
  let optionBytes := little_endian 1 0 in
  let indexBytes := little_endian 2 (Z.abs_N txIndex) in
  let seeds :=
    [Buffer_from GOVERNANCE_PROGRAM_SEED; toBuffer proposal; optionBytes; indexBytes] in
  let call := insertTransactionTx gp governanceKey proposalAddress ownerRecordKey
                txIndex instructions w in
  ((65536 <= Z.abs txIndex)%Z ->
     derivations (events call) = derivations (trace w) /\
     exists e, outcome call = Throw e) /\
  ((Z.abs txIndex < 65536)%Z ->
     (List.length optionBytes = 1 /\ of_little_endian optionBytes = 0%N) /\
     (List.length indexBytes = 2 /\
      Z.of_N (of_little_endian indexBytes) = Z.abs txIndex) /\
     derivations (events call) =
       derivations (trace w) ++ [(seeds, GOVERNANCE_PROGRAM_ID)] /\
     ((exists t, outcome call = Ok t) <->
        (0 <= txIndex)%Z /\
        (exists gk, PublicKey_new governanceKey = Ok gk) /\
        (exists ork, PublicKey_new ownerRecordKey = Ok ork)) /\
     (forall t, outcome call = Ok t ->
        tx_method t = insertTransaction 0 txIndex 0
                        (map getInstructionDataFromInstruction instructions) /\
        account "proposalTransactionAddress" t =
          Some (AddrKey (fst (findProgramAddress seeds GOVERNANCE_PROGRAM_ID))) /\
        account "proposal" t = Some proposalAddress /\
        account "tokenOwnerRecord" t = Some ownerRecordKey /\
        forall txIndex' t',
          outcome (insertTransactionTx gp governanceKey proposalAddress
                     ownerRecordKey txIndex' instructions w) = Ok t' ->
          (forall name, name <> "proposalTransactionAddress" ->
             account name t' = account name t) /\
          (txIndex' <> txIndex ->
             little_endian 2 (Z.abs_N txIndex') <> indexBytes))).
Proof.
  intros Hp optionBytes indexBytes seeds call. split.
  - intros G.
    destruct (insertTransactionTx_too_wide gp governanceKey proposalAddress
                ownerRecordKey txIndex instructions w proposal Hp G) as [e E].
    subst call. unfold events, outcome. rewrite E. cbn [fst snd].
    split; [reflexivity | now exists e].
  - intros Hlt.
    pose proof (insertTransactionTx_steps gp governanceKey proposalAddress
                  ownerRecordKey txIndex instructions w proposal Hp Hlt) as E.
    cbv zeta in E.
    split; [split; reflexivity|].
    split.
    { split; [apply little_endian_length|].
      subst indexBytes. rewrite of_little_endian_fits.
      - rewrite N2Z.inj_abs_N. reflexivity.
      - change (256 ^ N.of_nat 2)%N with 65536%N. lia. }
    split.
    { subst call. unfold events. rewrite E.
      match goal with
      | |- context [methods_transaction ?g ?c ?a ?w0] =>
          destruct (methods_transaction_cases g c a w0) as [(_ & _ & B)|[e B]]
      end; cbv zeta in B; rewrite B; cbn [snd log trace];
        rewrite !derivations_app; simpl; rewrite ?app_nil_r; reflexivity. }
    split.
    { split.
      - intros [t Ht]. subst call. unfold outcome in Ht.
        destruct (insertTransactionTx gp governanceKey proposalAddress
                    ownerRecordKey txIndex instructions w) as [res w'] eqn:R.
        simpl in Ht. subst res.
        destruct (insertTransactionTx_Ok_inv _ _ _ _ _ _ _ _ _ R)
          as (_ & Hg & Ho & Hi).
        split; [lia|]. split; assumption.
      - intros (Hpos & [gk Hg] & [ork Ho]).
        pose proof (insertTransactionTx_run gp governanceKey proposalAddress
                      ownerRecordKey txIndex instructions w proposal gk ork
                      Hp Hg Ho ltac:(lia)) as R.
        cbv zeta in R. subst call. unfold outcome. rewrite R.
        eexists. reflexivity. }
    intros t Ht. subst call. unfold outcome in Ht.
    destruct (insertTransactionTx gp governanceKey proposalAddress
                ownerRecordKey txIndex instructions w) as [res w1] eqn:R.
    simpl in Ht. subst res.
    destruct (insertTransactionTx_Ok_inv _ _ _ _ _ _ _ _ _ R)
      as (_ & [gk Hg] & [ork Ho] & Hi).
    pose proof (insertTransactionTx_run gp governanceKey proposalAddress
                  ownerRecordKey txIndex instructions w proposal gk ork
                  Hp Hg Ho Hi) as R1.
    cbv zeta in R1. rewrite R1 in R. injection R as Et _. subst t.
    repeat (split; [reflexivity|]).
    intros txIndex' t' Ht'. unfold outcome in Ht'.
    destruct (insertTransactionTx gp governanceKey proposalAddress
                ownerRecordKey txIndex' instructions w) as [res w2] eqn:R'.
    simpl in Ht'. subst res.
    destruct (insertTransactionTx_Ok_inv _ _ _ _ _ _ _ _ _ R')
      as (_ & _ & _ & Hi').
    pose proof (insertTransactionTx_run gp governanceKey proposalAddress
                  ownerRecordKey txIndex' instructions w proposal gk ork
                  Hp Hg Ho Hi') as R2.
    cbv zeta in R2. rewrite R2 in R'. injection R' as Et' _. subst t'.
    split.
    + intros name Hname. unfold account. cbn [tx_accounts lookup].
      destruct (String.eqb_spec "proposalTransactionAddress" name) as [Heq|_];
        [congruence|reflexivity].
    + intros Hne Heq. apply Hne. subst indexBytes.
      apply little_endian_inj in Heq;
        change (256 ^ N.of_nat 2)%N with 65536%N; lia.
Qed.

(** C5 (amended). When the realm fetch yields no account, [createProposalTx]
    and the composite builder throw the error "Could not fetch Realm V2
    account"; when the fetch itself throws, they throw that same exception.
    In both cases the only recorded step is the fetch: no key pair is
    drawn, no address derived, no transaction constructed, and nothing is
    returned. *)
Theorem realm_fetch_failure_stops_builders
    gp realmKey governanceKey name instructions cv w :
  (fetchRealmV2 (connection (provider gp)) realmKey = Ok None ->
     createProposalTx gp realmKey governanceKey name cv w =
       (Throw (Error "Could not fetch Realm V2 account"), log (RealmFetched realmKey) w) /\
     createProposalWithInstructionsTransactions gp realmKey governanceKey name
         instructions cv w =
       (Throw (Error "Could not fetch Realm V2 account"), log (RealmFetched realmKey) w)) /\
  (forall e, fetchRealmV2 (connection (provider gp)) realmKey = Throw e ->
     createProposalTx gp realmKey governanceKey name cv w =
       (Throw e, log (RealmFetched realmKey) w) /\
     createProposalWithInstructionsTransactions gp realmKey governanceKey name
         instructions cv w =
       (Throw e, log (RealmFetched realmKey) w)).
Proof.
  split.
  - intros H. split; run; rewrite H; reflexivity.
  - intros e H. split; run; rewrite H; reflexivity.
Qed.




(** C8. Every call of [createProposalTx] that returns has constructed one
    transaction, which invokes [createProposal] with the caller's name, an
    empty description, the single-choice vote type, the one option
    "Approve", the deny option enabled and the proposal seed, and it returns
    this transaction together with the proposal address and the owner
    record address that were derived and that the transaction names. *)
Theorem createProposalTx_fixed_parameters
    gp realmKey governanceKey name cv w r w' :
  createProposalTx gp realmKey governanceKey name cv w = (Ok r, w') ->
  tx_method (tx r) =
    createProposal name "" singleChoice ["Approve"] true (generateKeypair (entropy w)) /\
  constructed (trace w') = constructed (trace w) ++ [tx r] /\
  account "proposalAddress" (tx r) = Some (AddrKey (proposalAddress r)) /\
  account "proposalOwnerRecord" (tx r) = Some (AddrKey (proposalOwnerRecordKey r)) /\
  exists realm rk gk mint,
    PublicKey_new realmKey = Ok rk /\
    PublicKey_new governanceKey = Ok gk /\
    selectGoverningTokenMint (defaultTo false cv) realm = Some mint /\
    proposalAddress r =
      fst (findProgramAddress
             [ Buffer_from GOVERNANCE_PROGRAM_SEED; toBuffer gk; toBuffer mint;
               toBuffer (generateKeypair (entropy w)) ] GOVERNANCE_PROGRAM_ID) /\
    proposalOwnerRecordKey r =
      fst (findProgramAddress
             [ Buffer_from GOVERNANCE_PROGRAM_SEED; toBuffer rk; toBuffer mint;
               toBuffer (provider_publicKey (provider gp)) ] GOVERNANCE_PROGRAM_ID).
Proof.
  intros H.
  destruct (createProposalTx_Ok_inv _ _ _ _ _ _ _ _ H)
    as (realm & rk & gk & mint & Hf & Hr & Hg & Hm).
  pose proof (createProposalTx_run gp realmKey governanceKey name cv w
                realm rk gk mint Hf Hr Hg Hm) as E.
  cbv zeta in E. rewrite E in H. injection H as Hres Hw. subst r w'.
  cbn [tx proposalAddress proposalOwnerRecordKey trace].
  split; [reflexivity|]. split; [rewrite constructed_app; reflexivity|].
  split; [reflexivity|]. split; [reflexivity|].
  exists realm, rk, gk, mint. repeat split; assumption.
Qed.

(** C9. The handle that [createSplGovernanceProgram] returns has a provider
    on the given connection and wallet whose options are commitment
    "confirmed", preflight commitment "confirmed" and skipPreflight false;
    its program id is the given one, and [GOVERNANCE_PROGRAM_ID] when the
    argument is omitted. *)
Theorem createSplGovernanceProgram_handle w c programId :
  let handle := createSplGovernanceProgram w c programId in
  commitment (opts (provider handle)) = Some confirmed /\
  preflightCommitment (opts (provider handle)) = Some confirmed /\
  skipPreflight (opts (provider handle)) = Some false /\
  connection (provider handle) = c /\
  wallet (provider handle) = w /\
  program_programId handle =
    match programId with
    | Some given => given
    | None => GOVERNANCE_PROGRAM_ID
    end /\
  program_programId (createSplGovernanceProgram w c None) = GOVERNANCE_PROGRAM_ID.
Proof.
  intros handle. subst handle. unfold createSplGovernanceProgram. simpl.
  repeat split.
Qed.

(** C10. Whatever program id the handle was created with, every address
    derivation that [createProposalTx], [insertTransactionTx] and the
    composite builder perform, on any input and whether they return or
    throw, has [GOVERNANCE_PROGRAM_ID] as owning program, while the
    transactions they construct target the handle's own program id. *)
Theorem derivations_use_the_constant_program_id
    w c programId realmKey governanceKey proposalAddress ownerRecordKey
    name txIndex instructions cv :
  let gp := createSplGovernanceProgram w c programId in
  let wellOwned e :=
    derivedUnderGovernanceProgram e /\
    match e with
    | TransactionBuilt t => tx_programId t = defaultTo GOVERNANCE_PROGRAM_ID programId
    | _ => True
    end in
  emits wellOwned (createProposalTx gp realmKey governanceKey name cv) /\
  emits wellOwned (insertTransactionTx gp governanceKey proposalAddress
                     ownerRecordKey txIndex instructions) /\
  emits wellOwned (createProposalWithInstructionsTransactions gp realmKey
                     governanceKey name instructions cv).
Proof.
  intros gp wellOwned.
  assert (Hfetch : forall a, wellOwned (RealmFetched a)) by (intros; split; exact I).
  assert (Hkey : forall k, wellOwned (KeypairGenerated k)) by (intros; split; exact I).
  assert (Hder : forall s, wellOwned (AddressDerived s GOVERNANCE_PROGRAM_ID))
    by (intros; split; [reflexivity|exact I]).
  assert (Htx : forall call accs,
             emits wellOwned (methods_transaction gp call accs)).
  { intros call accs. apply emits_transaction_of.
    split; [exact I|reflexivity]. }
  repeat split.
  - unfold createProposalTx.
    apply emits_bind; [apply emits_fetch, Hfetch|].
    intros [realm|]; [|apply emits_throw].
    repeat first
      [ apply emits_ret | apply emits_lift | apply emits_nonNull
      | apply emits_Keypair, Hkey | apply emits_derive, Hder | apply Htx
      | apply emits_bind; [|intros ?] ].
  - unfold insertTransactionTx. cbv zeta.
    repeat first
      [ apply emits_lift | apply emits_derive, Hder | apply Htx
      | apply emits_bind; [|intros ?] ].
  - unfold createProposalWithInstructionsTransactions.
    apply emits_bind; [apply emits_fetch, Hfetch|].
    intros [realm|]; [|apply emits_throw].
    repeat first
      [ apply emits_ret | apply emits_lift | apply emits_nonNull
      | apply emits_Keypair, Hkey | apply emits_derive, Hder | apply Htx
      | apply emits_bind; [|intros ?] ].
Qed.

End Properties.

(** ** The builders on the concrete platform *)

Section Runs_on_fixture.

Import Fixture.

Lemma createProposalTx_derives_four_addresses_witness :
  let call := createProposalTx (platform := Fixture.platform) program realmKey governanceKey
                "Fund the treasury" None start in
  derivations (events call) =
    [ ([Buffer_from "governance"; repeat "g"%byte 32; repeat "m"%byte 32;
        repeat x00 32], key "G"%byte);
      ([Buffer_from "governance"; repeat "r"%byte 32; repeat "m"%byte 32;
        repeat "w"%byte 32], key "G"%byte);
      ([Buffer_from "realm-config"; repeat "r"%byte 32], key "G"%byte);
      ([Buffer_from "governance" ++ repeat "g"%byte 32 ++ repeat "m"%byte 32
          ++ repeat x00 32 ++ repeat "G"%byte 32;
        repeat "w"%byte 32], key "G"%byte) ] /\
  exists r, outcome call = Ok r.
Proof.
  pose proof (@createProposalTx_derives_four_addresses Fixture.platform program realmKey
                governanceKey "Fund the treasury" None start realm
                (key "r"%byte) (key "g"%byte) (key "m"%byte)
                eq_refl eq_refl eq_refl eq_refl) as H.
  cbv zeta in H. destruct H as [D [r [Hr _]]].
  split; [rewrite D; reflexivity | exists r; exact Hr].
Defined.

Lemma composite_agrees_with_single_builders_witness :
  exists created t2 t3,
    outcome (createProposalWithInstructionsTransactions (platform := Fixture.platform) program
               realmKey governanceKey "Fund the treasury" [transfer] None start)
    = Ok [tx created; t2; t3].
Proof.
  pose proof (@composite_agrees_with_single_builders Fixture.platform program realmKey
                governanceKey "Fund the treasury" [transfer] None start) as H.
  cbv zeta in H. destruct H as [_ H].
  destruct (H _ eq_refl) as (created & t2 & t3 & E & _).
  exists created, t2, t3. rewrite <- E. reflexivity.
Defined.

Lemma governing_token_mint_selection_witness :
  exists r,
    outcome (createProposalTx (platform := Fixture.platform) program realmKey governanceKey
               "Council only" (Some true) start) = Ok r /\
    account "governingTokenMint" (tx r) = Some (AddrKey (key "c"%byte)).
Proof.
  pose proof (@governing_token_mint_selection Fixture.platform program realmKey governanceKey
                "Council only" [transfer] (Some true) start realm
                (key "r"%byte) (key "g"%byte) (key "c"%byte)
                eq_refl eq_refl eq_refl eq_refl) as H.
  cbv zeta in H. destruct H as [[r [Hr [Hm _]]] _].
  exists r. split; assumption.
Defined.

Lemma insertTransactionTx_nested_address_witness :
  exists t,
    outcome (insertTransactionTx (platform := Fixture.platform) program governanceKey proposalKey
               ownerRecordKey 258 [transfer] start) = Ok t /\
    account "proposalTransactionAddress" t =
      Some (AddrKey (fst (findProgramAddress (Platform := Fixture.platform)
              [Buffer_from "governance"; repeat "p"%byte 32; [x00]; [x02; x01]]
              (key "G"%byte)))).
Proof.
  pose proof (@insertTransactionTx_nested_address Fixture.platform program governanceKey
                proposalKey ownerRecordKey 258 [transfer] start (key "p"%byte)
                eq_refl) as H.
  cbv zeta in H. destruct H as [_ H].
  destruct (H ltac:(reflexivity)) as (_ & _ & _ & Hreturns & Hon).
  destruct (proj2 Hreturns) as [t Ht].
  { split; [lia|]. split; eexists; reflexivity. }
  exists t. split; [exact Ht | exact (proj1 (proj2 (Hon t Ht)))].
Defined.

Lemma realm_fetch_failure_stops_builders_witness :
  createProposalTx (platform := Fixture.platform) programOnEmptyChain realmKey governanceKey
      "Fund the treasury" None start =
    (Throw (Error "Could not fetch Realm V2 account"),
     {| entropy := 0; trace := [RealmFetched realmKey] |}).
Proof.
  exact (proj1 (proj1 (@realm_fetch_failure_stops_builders Fixture.platform programOnEmptyChain
                         realmKey governanceKey "Fund the treasury" [transfer]
                         None start) eq_refl)).
Defined.



Lemma createProposalTx_fixed_parameters_witness :
  exists r,
    outcome (createProposalTx (platform := Fixture.platform) program realmKey governanceKey
               "Fund the treasury" None start) = Ok r /\
    tx_method (tx r) =
      createProposal "Fund the treasury" "" singleChoice ["Approve"] true (key x00).
Proof.
  destruct (createProposalTx (platform := Fixture.platform) program realmKey governanceKey
              "Fund the treasury" None start) as [[r|e] w'] eqn:E.
  - exists r. split; [reflexivity|].
    exact (proj1 (@createProposalTx_fixed_parameters Fixture.platform program realmKey
                    governanceKey "Fund the treasury" None start r w' E)).
  - discriminate E.
Defined.

(** The claim that a missing realm is signalled as "Realm not found" fails:
    the message is another one. *)
Lemma realm_not_found_counterexample :
  fetchRealmV2 (connection (provider programOnEmptyChain)) realmKey = Ok None /\
  outcome (createProposalTx (platform := Fixture.platform) programOnEmptyChain realmKey
             governanceKey "Fund the treasury" None start)
    = Throw (Error "Could not fetch Realm V2 account") /\
  outcome (createProposalTx (platform := Fixture.platform) programOnEmptyChain realmKey
             governanceKey "Fund the treasury" None start)
    <> Throw (Error "Realm not found").
Proof.
  split; [reflexivity|]. split; [reflexivity|]. discriminate.
Qed.

(** The claim that every txIndex has its nested address derived fails: at
    65536 [insertTransactionTx] throws and derives nothing. *)
Lemma nested_address_not_derived_counterexample :
  derivations (events (insertTransactionTx (platform := Fixture.platform) program
                         governanceKey proposalKey ownerRecordKey 65536
                         [transfer] start)) = [] /\
  outcome (insertTransactionTx (platform := Fixture.platform) program
             governanceKey proposalKey ownerRecordKey 65536 [transfer] start)
    = Throw (Error "byte array longer than desired length").
Proof.
  split; reflexivity.
Qed.


(** With an overriding program id the derivations still name the constant,
    and the transaction names the override. *)
Example override_is_not_used_for_derivation :
  let call := insertTransactionTx (platform := Fixture.platform) customProgram governanceKey
                proposalKey ownerRecordKey 0 [] start in
  map snd (derivations (events call)) = [key "G"%byte] /\
  map tx_programId (constructed (events call)) = [key "X"%byte].
Proof. split; reflexivity. Qed.

End Runs_on_fixture.

(** ** Failure paths, traces and how the builders compose *)

Section Behaviour.

Context {platform : Platform}.

(** X1. On a handle made by [createSplGovernanceProgram],
    [createProposalSignOffTx] returns exactly when its four keys are public
    keys (or decode to one).  It then has made one [signOffProposal] call
    on the handle's program id, with the wallet's public key as signatory,
    its fourth argument as owner record and its fifth as proposal, and has
    fetched and derived nothing; when it throws it has recorded nothing. *)
Theorem createProposalSignOffTx_names_the_wallet
    wl c programId realmKey governanceKey ownerRecordKey proposalKey w :
  let gp := createSplGovernanceProgram wl c programId in
  let call :=
    createProposalSignOffTx gp realmKey governanceKey ownerRecordKey proposalKey w in
  let t := {| tx_programId := defaultTo GOVERNANCE_PROGRAM_ID programId;
              tx_method := signOffProposal;
              tx_accounts :=
                [ ("realm", realmKey);
                  ("governance", governanceKey);
                  ("proposal", proposalKey);
                  ("signatory", AddrKey (wallet_publicKey wl));
                  ("proposalOwnerRecord", ownerRecordKey) ] |} in
  let keysAreKeys :=
    (exists rk, PublicKey_new realmKey = Ok rk) /\
    (exists gk, PublicKey_new governanceKey = Ok gk) /\
    (exists pk, PublicKey_new proposalKey = Ok pk) /\
    (exists ork, PublicKey_new ownerRecordKey = Ok ork) in
  ((exists t', outcome call = Ok t') <-> keysAreKeys) /\
  (keysAreKeys ->
     call = (Ok t, {| entropy := entropy w;
                      trace := trace w ++ [TransactionBuilt t] |})) /\
  (forall e, outcome call = Throw e -> snd call = w).
Proof.
  intros gp call t keysAreKeys. subst gp call t keysAreKeys.
  unfold outcome, createProposalSignOffTx, methods_transaction, bind, lift.
  cbn [translateAccounts encodeArguments].
  destruct (PublicKey_new realmKey) as [rk|e1].
  2:{ split; [split|split].
      - intros [t' H]. discriminate H.
      - intros [[rk H] _]. discriminate H.
      - intros [[rk H] _]. discriminate H.
      - intros e _. reflexivity. }
  destruct (PublicKey_new governanceKey) as [gk|e2].
  2:{ split; [split|split].
      - intros [t' H]. discriminate H.
      - intros (_ & [gk H] & _). discriminate H.
      - intros (_ & [gk H] & _). discriminate H.
      - intros e _. reflexivity. }
  destruct (PublicKey_new proposalKey) as [pk|e3].
  2:{ split; [split|split].
      - intros [t' H]. discriminate H.
      - intros (_ & _ & [pk H] & _). discriminate H.
      - intros (_ & _ & [pk H] & _). discriminate H.
      - intros e _. reflexivity. }
  cbn [PublicKey_new].
  destruct (PublicKey_new ownerRecordKey) as [ork|e4].
  2:{ split; [split|split].
      - intros [t' H]. discriminate H.
      - intros (_ & _ & _ & [ork H]). discriminate H.
      - intros (_ & _ & _ & [ork H]). discriminate H.
      - intros e _. reflexivity. }
  split; [split|split].
  - intros _. repeat split; eexists; reflexivity.
  - intros _. eexists. reflexivity.
  - intros _. reflexivity.
  - intros e H. discriminate H.
Qed.

(** X2. [createProposalTx] and the composite builder return under the same
    condition, and exactly then: the realm fetch yields a realm, the realm
    key and the governance key are public keys (or decode to one), and the
    selected governing token mint is not null. *)
Theorem proposal_builders_return_exactly_when
    gp realmKey governanceKey name instructions cv w :
  let ready :=
    exists realm rk gk mint,
      fetchRealmV2 (connection (provider gp)) realmKey = Ok (Some realm) /\
      PublicKey_new realmKey = Ok rk /\
      PublicKey_new governanceKey = Ok gk /\
      selectGoverningTokenMint (defaultTo false cv) realm = Some mint in
  ((exists r, outcome (createProposalTx gp realmKey governanceKey name cv w) = Ok r)
     <-> ready) /\
  ((exists txs, outcome (createProposalWithInstructionsTransactions gp realmKey
                           governanceKey name instructions cv w) = Ok txs)
     <-> ready).
Proof.
  intros ready. subst ready. split; split.
  - intros [r Hr]. unfold outcome in Hr.
    destruct (createProposalTx gp realmKey governanceKey name cv w) as [res w'] eqn:E.
    simpl in Hr. subst res. exact (createProposalTx_Ok_inv _ _ _ _ _ _ _ _ E).
  - intros (realm & rk & gk & mint & Hf & Hr & Hg & Hm).
    pose proof (createProposalTx_run gp realmKey governanceKey name cv w
                  realm rk gk mint Hf Hr Hg Hm) as E.
    cbv zeta in E. unfold outcome. rewrite E. eexists. reflexivity.
  - intros [txs Ht]. unfold outcome in Ht.
    destruct (createProposalWithInstructionsTransactions gp realmKey governanceKey
                name instructions cv w) as [res w'] eqn:E.
    simpl in Ht. subst res. exact (composite_Ok_inv _ _ _ _ _ _ _ _ _ E).
  - intros (realm & rk & gk & mint & Hf & Hr & Hg & Hm).
    pose proof (composite_run gp realmKey governanceKey name instructions cv w
                  realm rk gk mint Hf Hr Hg Hm) as E.
    cbv zeta in E. unfold outcome. rewrite E. eexists. reflexivity.
Qed.

(** X3. A call of [createProposalTx] that throws, for whatever reason, has
    constructed no transaction. *)
Theorem createProposalTx_throws_without_transaction
    gp realmKey governanceKey name cv w e :
  outcome (createProposalTx gp realmKey governanceKey name cv w) = Throw e ->
  constructed (events (createProposalTx gp realmKey governanceKey name cv w))
    = constructed (trace w).
Proof.
  unfold outcome, events. run.
  destruct (fetchRealmV2 (connection (provider gp)) realmKey) as [[realm|]|e0];
    simpl; intros H;
    try (rewrite constructed_app; simpl; apply app_nil_r).
  revert H.
  destruct (PublicKey_new governanceKey) as [gk|e1]; simpl; intros H;
    try (rewrite !constructed_app; simpl; rewrite !app_nil_r; reflexivity).
  revert H.
  destruct (selectGoverningTokenMint (defaultTo false cv) realm) as [mint|];
    simpl; intros H;
    try (rewrite !constructed_app; simpl; rewrite !app_nil_r; reflexivity).
  revert H.
  destruct (PublicKey_new realmKey) as [rk|e2]; simpl; intros H;
    [discriminate H|].
  rewrite !constructed_app; simpl; rewrite !app_nil_r; reflexivity.
Qed.

(** X4. With [councilVote] true on a realm that has no council mint (and a
    governance key that is a public key), [createProposalTx] and the
    composite builder throw a TypeError after the realm was fetched and a
    key pair drawn, before any address is derived or transaction
    constructed. *)
Theorem missing_council_mint_is_a_TypeError
    gp realmKey governanceKey name instructions w realm gk :
  fetchRealmV2 (connection (provider gp)) realmKey = Ok (Some realm) ->
  PublicKey_new governanceKey = Ok gk ->
  councilMint (config realm) = None ->
  let after :=
    {| entropy := S (entropy w);
       trace := trace w ++ [ RealmFetched realmKey;
                             KeypairGenerated (generateKeypair (entropy w)) ] |} in
  exists message,
    createProposalTx gp realmKey governanceKey name (Some true) w =
      (Throw (TypeError message), after) /\
    createProposalWithInstructionsTransactions gp realmKey governanceKey name
        instructions (Some true) w =
      (Throw (TypeError message), after).
Proof.
  intros Hf Hg Hc after. subst after. eexists. split.
  - run. rewrite Hf. simpl. rewrite Hg. simpl.
    unfold selectGoverningTokenMint. rewrite Hc. simpl.
    repeat rewrite <- app_assoc. reflexivity.
  - run. rewrite Hf. simpl. rewrite Hg. simpl.
    unfold selectGoverningTokenMint. rewrite Hc. simpl.
    repeat rewrite <- app_assoc. reflexivity.
Qed.

(** X5. A governance key that is not a public key makes [createProposalTx]
    and the composite builder throw the key's conversion error, whatever
    the mint selection: the realm has been fetched and a key pair drawn by
    then, but no address is derived and no transaction constructed. *)
Theorem malformed_governance_key_is_rejected_late
    gp realmKey governanceKey name instructions cv w realm e :
  fetchRealmV2 (connection (provider gp)) realmKey = Ok (Some realm) ->
  PublicKey_new governanceKey = Throw e ->
  let after :=
    {| entropy := S (entropy w);
       trace := trace w ++ [ RealmFetched realmKey;
                             KeypairGenerated (generateKeypair (entropy w)) ] |} in
  createProposalTx gp realmKey governanceKey name cv w = (Throw e, after) /\
  createProposalWithInstructionsTransactions gp realmKey governanceKey name
      instructions cv w = (Throw e, after).
Proof.
  intros Hf Hg after. subst after. split.
  - run. rewrite Hf. simpl. rewrite Hg. simpl.
    repeat rewrite <- app_assoc. reflexivity.
  - run. rewrite Hf. simpl. rewrite Hg. simpl.
    repeat rewrite <- app_assoc. reflexivity.
Qed.

(** X6. On every input, returning or throwing, the composite builder and
    the three single builders chained perform the same address derivations
    in the same order, construct the same transactions in the same order
    and draw the same number of key pairs. *)
Theorem composite_and_single_builders_leave_the_same_trace
    gp realmKey governanceKey name instructions cv w :
  let composite :=
    createProposalWithInstructionsTransactions gp realmKey governanceKey name
      instructions cv w in
  let chained := individualBuilders gp realmKey governanceKey name instructions cv w in
  derivations (events composite) = derivations (events chained) /\
  constructed (events composite) = constructed (events chained) /\
  entropy (snd composite) = entropy (snd chained).
Proof.
  intros composite chained. subst composite chained.
  unfold events, individualBuilders. run.
  destruct (fetchRealmV2 (connection (provider gp)) realmKey) as [[realm|]|e];
    simpl; try (repeat split; reflexivity).
  destruct (PublicKey_new governanceKey) as [gk|e]; simpl;
    try (repeat split; reflexivity).
  destruct (selectGoverningTokenMint (defaultTo false cv) realm) as [mint|];
    simpl; try (repeat split; reflexivity).
  destruct (PublicKey_new realmKey) as [rk|e]; simpl;
    try (repeat split; reflexivity).
  split; [|split; [|reflexivity]].
  - rewrite !derivations_app. simpl.
    repeat rewrite app_nil_r. repeat rewrite <- app_assoc. reflexivity.
  - rewrite !constructed_app. simpl.
    repeat rewrite app_nil_r. repeat rewrite <- app_assoc. reflexivity.
Qed.

(** X7. The composite builder derives before it constructs, all or
    nothing: on every input its trace is the steps before construction
    followed by the constructions, and the transactions constructed are
    exactly the list it returns, or none when it throws. *)
Theorem composite_derives_before_it_constructs
    gp realmKey governanceKey name instructions cv w :
  let call :=
    createProposalWithInstructionsTransactions gp realmKey governanceKey name
      instructions cv w in
  exists before txs,
    events call = trace w ++ before ++ map TransactionBuilt txs /\
    constructed before = [] /\
    (outcome call = Ok txs \/ (txs = [] /\ exists e, outcome call = Throw e)).
Proof.
  intros call. subst call. unfold events, outcome. run.
  destruct (fetchRealmV2 (connection (provider gp)) realmKey) as [[realm|]|e]; simpl.
  2:{ eexists [_], []. rewrite app_nil_r. split; [reflexivity|].
      split; [reflexivity|]. right. split; [reflexivity|]. eexists. reflexivity. }
  2:{ eexists [_], []. rewrite app_nil_r. split; [reflexivity|].
      split; [reflexivity|]. right. split; [reflexivity|]. eexists. reflexivity. }
  destruct (PublicKey_new governanceKey) as [gk|e]; simpl.
  2:{ eexists [_; _], []. rewrite app_nil_r, <- !app_assoc.
      split; [reflexivity|]. split; [reflexivity|].
      right. split; [reflexivity|]. eexists. reflexivity. }
  destruct (selectGoverningTokenMint (defaultTo false cv) realm) as [mint|]; simpl.
  2:{ eexists [_; _], []. rewrite app_nil_r, <- !app_assoc.
      split; [reflexivity|]. split; [reflexivity|].
      right. split; [reflexivity|]. eexists. reflexivity. }
  destruct (PublicKey_new realmKey) as [rk|e]; simpl.
  2:{ eexists [_; _; _], []. rewrite app_nil_r, <- !app_assoc.
      split; [reflexivity|]. split; [reflexivity|].
      right. split; [reflexivity|]. eexists. reflexivity. }
  eexists [_; _; _; _; _; _; _], [_; _; _]. rewrite <- !app_assoc.
  split; [reflexivity|]. split; [reflexivity|]. left. reflexivity.
Qed.


(** X9. The sign of txIndex is not encoded: for an index of magnitude below
    65536 and a proposal address that is a key, [insertTransactionTx] at
    [- txIndex] derives the nested address from the same seeds as at
    [txIndex], those of the magnitude.  With keys that are public keys and
    a positive index, the call at [txIndex] returns, and the call at
    [- txIndex], after that derivation, throws a RangeError. *)
Theorem insertTransactionTx_drops_the_sign
    gp governanceKey proposalAddress ownerRecordKey txIndex instructions w proposal :
  PublicKey_new proposalAddress = Ok proposal ->
  (Z.abs txIndex < 65536)%Z ->
  let plus := insertTransactionTx gp governanceKey proposalAddress ownerRecordKey
                txIndex instructions w in
  let minus := insertTransactionTx gp governanceKey proposalAddress ownerRecordKey
                 (- txIndex) instructions w in
  let seeds := [ Buffer_from GOVERNANCE_PROGRAM_SEED; toBuffer proposal;
                 little_endian 1 0; little_endian 2 (Z.abs_N txIndex) ] in
  derivations (events plus) =
    derivations (trace w) ++ [(seeds, GOVERNANCE_PROGRAM_ID)] /\
  derivations (events minus) = derivations (events plus) /\
  (forall gk ork,
     PublicKey_new governanceKey = Ok gk ->
     PublicKey_new ownerRecordKey = Ok ork ->
     (0 < txIndex)%Z ->
     (exists t, outcome plus = Ok t /\
        tx_method t = insertTransaction 0 txIndex 0
                        (map getInstructionDataFromInstruction instructions)) /\
     (exists message, outcome minus = Throw (RangeError message))).
Proof.
  intros Hp Hi plus minus seeds.
  assert (Hi' : (Z.abs (- txIndex) < 65536)%Z) by (rewrite Z.abs_opp; exact Hi).
  pose proof (insertTransactionTx_derives gp governanceKey proposalAddress
                ownerRecordKey txIndex instructions w proposal Hp Hi) as D.
  pose proof (insertTransactionTx_derives gp governanceKey proposalAddress
                ownerRecordKey (- txIndex) instructions w proposal Hp Hi') as D'.
  rewrite Zabs2N.inj_opp in D'.
  subst plus minus seeds.
  split; [exact D|]. split; [rewrite D, D'; reflexivity|].
  intros gk ork Hg Ho Hpos. split.
  - pose proof (insertTransactionTx_run gp governanceKey proposalAddress
                  ownerRecordKey txIndex instructions w proposal gk ork
                  Hp Hg Ho ltac:(lia)) as R.
    cbv zeta in R. unfold outcome. rewrite R. eexists. split; reflexivity.
  - pose proof (insertTransactionTx_steps gp governanceKey proposalAddress
                  ownerRecordKey (- txIndex) instructions w proposal Hp Hi') as E.
    cbv zeta in E. unfold outcome. rewrite E. eexists.
    rewrite methods_transaction_Throw_arguments
      with (e := RangeError "The value is out of range. It must be >= 0 and <= 65535.").
    + reflexivity.
    + simpl. rewrite Hg, Hp, Ho. reflexivity.
    + unfold encodeArguments.
      destruct (Z.leb_spec 0 (- txIndex)) as [L|L]; [lia|]. reflexivity.
Qed.

(** X10. The nested address depends on the proposal key and the index
    only: two calls of [insertTransactionTx] whose proposal addresses denote
    the same public key (as a key or as a string) and whose indices are
    equal derive from the same seeds, whatever the handle, the governance
    key, the owner record, the instructions and the world, and whether or
    not they return; when both return they name the same
    [proposalTransactionAddress]. *)
Theorem nested_address_depends_on_proposal_and_index
    gp gp' governanceKey governanceKey' proposalAddress proposalAddress'
    ownerRecordKey ownerRecordKey' txIndex instructions instructions' w w' proposal :
  PublicKey_new proposalAddress = Ok proposal ->
  PublicKey_new proposalAddress' = Ok proposal ->
  (Z.abs txIndex < 65536)%Z ->
  let one := insertTransactionTx gp governanceKey proposalAddress ownerRecordKey
               txIndex instructions w in
  let other := insertTransactionTx gp' governanceKey' proposalAddress'
                 ownerRecordKey' txIndex instructions' w' in
  exists derivation,
    derivations (events one) = derivations (trace w) ++ [derivation] /\
    derivations (events other) = derivations (trace w') ++ [derivation] /\
    forall t t', outcome one = Ok t -> outcome other = Ok t' ->
      account "proposalTransactionAddress" t =
        account "proposalTransactionAddress" t' /\
      exists derived, account "proposalTransactionAddress" t = Some (AddrKey derived).
Proof.
  intros Hp Hp' Hi one other. subst one other.
  eexists. split; [|split].
  - apply (insertTransactionTx_derives gp governanceKey proposalAddress
             ownerRecordKey txIndex instructions w proposal Hp Hi).
  - apply (insertTransactionTx_derives gp' governanceKey' proposalAddress'
             ownerRecordKey' txIndex instructions' w' proposal Hp' Hi).
  - intros t t' Ht Ht'.
    pose proof (insertTransactionTx_returns _ _ _ _ _ _ _ _ _ Hp Ht) as E.
    pose proof (insertTransactionTx_returns _ _ _ _ _ _ _ _ _ Hp' Ht') as E'.
    cbv zeta in E, E'. subst t t'.
    split; [reflexivity|]. eexists. reflexivity.
Qed.

(** X11. The owner record belongs to the realm, the mint and the caller,
    not to a proposal: two returning calls of [createProposalTx] on the same
    handle and realm with the same [councilVote] return the same owner
    record key and name the same realm config address and governing token
    mint, whatever their governance keys, names and proposal seeds. *)
Theorem owner_record_is_shared_by_all_proposals
    gp realmKey governanceKey governanceKey' name name' cv w w' r r' w1 w1' :
  createProposalTx gp realmKey governanceKey name cv w = (Ok r, w1) ->
  createProposalTx gp realmKey governanceKey' name' cv w' = (Ok r', w1') ->
  proposalOwnerRecordKey r = proposalOwnerRecordKey r' /\
  account "proposalOwnerRecord" (tx r) = account "proposalOwnerRecord" (tx r') /\
  account "realmConfigAddress" (tx r) = account "realmConfigAddress" (tx r') /\
  account "governingTokenMint" (tx r) = account "governingTokenMint" (tx r').
Proof.
  intros H H'.
  destruct (createProposalTx_Ok_inv _ _ _ _ _ _ _ _ H)
    as (realm & rk & gk & mint & Hf & Hr & Hg & Hm).
  destruct (createProposalTx_Ok_inv _ _ _ _ _ _ _ _ H')
    as (realm' & rk' & gk' & mint' & Hf' & Hr' & Hg' & Hm').
  rewrite Hf in Hf'. injection Hf' as <-.
  rewrite Hr in Hr'. injection Hr' as <-.
  rewrite Hm in Hm'. injection Hm' as <-.
  pose proof (createProposalTx_run gp realmKey governanceKey name cv w
                realm rk gk mint Hf Hr Hg Hm) as E.
  pose proof (createProposalTx_run gp realmKey governanceKey' name' cv w'
                realm rk gk' mint Hf Hr Hg' Hm) as E'.
  cbv zeta in E, E'. rewrite E in H. rewrite E' in H'.
  injection H as <- _. injection H' as <- _.
  repeat split.
Qed.

(** X12. Two calls of [createProposalTx] made one after the other take
    their proposal seeds from two successive draws of a key pair: when both
    return, the first [createProposal] call carries the draw the world was
    at, the second the next one, and two key pairs have been drawn. *)
Theorem successive_proposals_take_successive_seeds
    gp realmKey governanceKey governanceKey' name name' cv cv' w r r' w' :
  bind (createProposalTx gp realmKey governanceKey name cv)
       (fun first =>
          bind (createProposalTx gp realmKey governanceKey' name' cv')
               (fun second => ret (first, second))) w = (Ok (r, r'), w') ->
  tx_method (tx r) =
    createProposal name "" singleChoice ["Approve"] true
      (generateKeypair (entropy w)) /\
  tx_method (tx r') =
    createProposal name' "" singleChoice ["Approve"] true
      (generateKeypair (S (entropy w))) /\
  entropy w' = S (S (entropy w)).
Proof.
  unfold bind at 1.
  destruct (createProposalTx gp realmKey governanceKey name cv w)
    as [[first|e] w1] eqn:E1; [|discriminate].
  unfold bind at 1.
  destruct (createProposalTx gp realmKey governanceKey' name' cv' w1)
    as [[second|e] w2] eqn:E2; [|discriminate].
  unfold ret. intros H. injection H as <- <- <-.
  destruct (createProposalTx_Ok_inv _ _ _ _ _ _ _ _ E1)
    as (realm & rk & gk & mint & Hf & Hr & Hg & Hm).
  pose proof (createProposalTx_run gp realmKey governanceKey name cv w
                realm rk gk mint Hf Hr Hg Hm) as R1.
  cbv zeta in R1. rewrite R1 in E1. injection E1 as Hfirst Hw1.
  destruct (createProposalTx_Ok_inv _ _ _ _ _ _ _ _ E2)
    as (realm' & rk' & gk' & mint' & Hf' & Hr' & Hg' & Hm').
  pose proof (createProposalTx_run gp realmKey governanceKey' name' cv' w1
                realm' rk' gk' mint' Hf' Hr' Hg' Hm') as R2.
  cbv zeta in R2. rewrite R2 in E2. injection E2 as Hsecond Hw2.
  subst first second w2 w1. repeat split.
Qed.

(** X13. The records lose nothing: two instruction lists that
    [insertTransactionTx] maps to the same list of records are the same
    list. *)
Theorem instruction_records_determine_the_instructions
    (instructions instructions' : list TransactionInstruction) :
  map (fun ix => getInstructionDataFromInstruction ix) instructions =
    map (fun ix => getInstructionDataFromInstruction ix) instructions' ->
  instructions = instructions'.
Proof.
  revert instructions'.
  induction instructions as [|ix rest IH]; intros [|ix' rest']; cbn [map];
    intros H; try discriminate; [reflexivity|].
  injection H as Hprogram Hkeys Hdata Hrest.
  destruct ix as [k p d], ix' as [k' p' d']. simpl in Hprogram, Hkeys, Hdata.
  subst k' p' d'. f_equal. now apply IH.
Qed.


(** X15. [insertTransactionTx] converts the proposal address before it
    encodes the index: a proposal address that is not a public key makes it
    throw the conversion error whatever the index, and with a proposal
    address that is one, an index of magnitude 2^53 or more makes it throw
    "Assertion failed"; in both cases nothing has been recorded. *)
Theorem insertTransactionTx_converts_the_proposal_first
    gp governanceKey proposalAddress ownerRecordKey txIndex instructions w :
  let call := insertTransactionTx gp governanceKey proposalAddress ownerRecordKey
                txIndex instructions w in
  (forall e, PublicKey_new proposalAddress = Throw e -> call = (Throw e, w)) /\
  (forall proposal, PublicKey_new proposalAddress = Ok proposal ->
     (2 ^ 53 <= Z.abs txIndex)%Z ->
     call = (Throw (Error "Assertion failed"), w)).
Proof.
  intros call. subst call. split.
  - intros e He. run. rewrite He. reflexivity.
  - intros proposal Hp Hi. pose proof (BN_new_unsafe txIndex Hi) as Hbn.
    run. rewrite Hp. simpl. rewrite Hbn. reflexivity.
Qed.

End Behaviour.

(** ** Failure paths and compositions on the concrete platform *)

Section Behaviour_on_fixture.

Import Fixture.

Lemma createProposalTx_throws_without_transaction_witness :
  constructed (events (createProposalTx (platform := Fixture.platform)
                         communityProgram realmKey governanceKey "Council only"
                         (Some true) start)) = [].
Proof.
  exact (@createProposalTx_throws_without_transaction Fixture.platform
           communityProgram realmKey governanceKey "Council only" (Some true) start
           (TypeError "Cannot read properties of null (reading 'toBuffer')")
           eq_refl).
Defined.

Lemma missing_council_mint_is_a_TypeError_witness :
  exists message,
    outcome (createProposalTx (platform := Fixture.platform) communityProgram
               realmKey governanceKey "Council only" (Some true) start)
    = Throw (TypeError message).
Proof.
  destruct (@missing_council_mint_is_a_TypeError Fixture.platform communityProgram
              realmKey governanceKey "Council only" [transfer] start
              communityRealm (key "g"%byte) eq_refl eq_refl eq_refl)
    as [message [H _]].
  exists message. unfold outcome. rewrite H. reflexivity.
Defined.

Lemma malformed_governance_key_is_rejected_late_witness :
  createProposalTx (platform := Fixture.platform) program realmKey malformedKey
      "Fund the treasury" None start =
    (Throw (Error "Non-base58 character"),
     {| entropy := 1;
        trace := [RealmFetched realmKey; KeypairGenerated (key x00)] |}).
Proof.
  exact (proj1 (@malformed_governance_key_is_rejected_late Fixture.platform program
                  realmKey malformedKey "Fund the treasury" [transfer] None start
                  realm (Error "Non-base58 character") eq_refl eq_refl)).
Defined.

Lemma insertTransactionTx_drops_the_sign_witness :
  derivations (events (insertTransactionTx (platform := Fixture.platform) program
                         governanceKey proposalKey ownerRecordKey (-5) [transfer] start))
  = derivations (events (insertTransactionTx (platform := Fixture.platform) program
                           governanceKey proposalKey ownerRecordKey 5 [transfer] start)).
Proof.
  exact (proj1 (proj2 (@insertTransactionTx_drops_the_sign Fixture.platform program
                         governanceKey proposalKey ownerRecordKey 5 [transfer] start
                         (key "p"%byte) eq_refl eq_refl))).
Defined.

Lemma nested_address_depends_on_proposal_and_index_witness :
  exists derivation,
    derivations (events (insertTransactionTx (platform := Fixture.platform) program
                           governanceKey proposalKey ownerRecordKey 3 [transfer]
                           start)) = [derivation] /\
    derivations (events (insertTransactionTx (platform := Fixture.platform)
                           customProgram malformedKey proposalKey governanceKey 3 []
                           start)) = [derivation].
Proof.
  destruct (@nested_address_depends_on_proposal_and_index Fixture.platform
              program customProgram governanceKey malformedKey proposalKey proposalKey
              ownerRecordKey governanceKey 3 [transfer] [] start start
              (key "p"%byte) eq_refl eq_refl eq_refl)
    as (derivation & D & D' & _).
  exists derivation. split; [exact D | exact D'].
Defined.

Lemma owner_record_is_shared_by_all_proposals_witness :
  exists r r',
    outcome (createProposalTx (platform := Fixture.platform) program realmKey
               governanceKey "Fund the treasury" None start) = Ok r /\
    outcome (createProposalTx (platform := Fixture.platform) program realmKey
               proposalKey "Raise the quorum" None
               {| entropy := 7; trace := [] |}) = Ok r' /\
    proposalOwnerRecordKey r = proposalOwnerRecordKey r'.
Proof.
  destruct (createProposalTx (platform := Fixture.platform) program realmKey
              governanceKey "Fund the treasury" None start)
    as [[r|e] w1] eqn:E; [|discriminate E].
  destruct (createProposalTx (platform := Fixture.platform) program realmKey
              proposalKey "Raise the quorum" None {| entropy := 7; trace := [] |})
    as [[r'|e] w1'] eqn:E'; [|discriminate E'].
  exists r, r'. split; [reflexivity|]. split; [reflexivity|].
  exact (proj1 (@owner_record_is_shared_by_all_proposals Fixture.platform program
                  realmKey governanceKey proposalKey "Fund the treasury"
                  "Raise the quorum" None start {| entropy := 7; trace := [] |}
                  r r' w1 w1' E E')).
Defined.

Lemma successive_proposals_take_successive_seeds_witness :
  exists r r' w',
    bind (createProposalTx (platform := Fixture.platform) program realmKey
            governanceKey "Fund the treasury" None)
         (fun first =>
            bind (createProposalTx (platform := Fixture.platform) program realmKey
                    governanceKey "Raise the quorum" (Some true))
                 (fun second => ret (first, second))) start = (Ok (r, r'), w') /\
    tx_method (tx r') =
      createProposal "Raise the quorum" "" singleChoice ["Approve"] true
        (key x01).
Proof.
  destruct (bind (createProposalTx (platform := Fixture.platform) program realmKey
                    governanceKey "Fund the treasury" None)
              (fun first =>
                 bind (createProposalTx (platform := Fixture.platform) program
                         realmKey governanceKey "Raise the quorum" (Some true))
                      (fun second => ret (first, second))) start)
    as [[[r r']|e] w'] eqn:E; [|discriminate E].
  exists r, r', w'. split; [reflexivity|].
  exact (proj1 (proj2 (@successive_proposals_take_successive_seeds Fixture.platform
                         program realmKey governanceKey governanceKey
                         "Fund the treasury" "Raise the quorum" None (Some true)
                         start r r' w' E))).
Defined.

Lemma instruction_records_determine_the_instructions_witness :
  [transfer] ++ [transfer] = [transfer; transfer].
Proof.
  exact (instruction_records_determine_the_instructions
           ([transfer] ++ [transfer]) [transfer; transfer] eq_refl).
Defined.

Lemma insertTransactionTx_converts_the_proposal_first_witness :
  insertTransactionTx (platform := Fixture.platform) program governanceKey
      malformedKey ownerRecordKey 70000 [transfer] start =
    (Throw (Error "Non-base58 character"), start).
Proof.
  exact (proj1 (@insertTransactionTx_converts_the_proposal_first Fixture.platform
                  program governanceKey malformedKey ownerRecordKey 70000
                  [transfer] start) (Error "Non-base58 character") eq_refl).
Defined.

End Behaviour_on_fixture.
